(** * ERC3 store agent: task runner and tool adapters

    A shallow embedding of [main.py] (command line task runner) and of the
    tool adapter layer of [store_agent.py], with the properties that the
    specification states about them.

    Conventions.
    - A Python [str] is a [string]: a sequence of code points below 256.
    - A Python [int] is a [Z]; a score (a Python number) is a [Q].
    - A Python exception is a value of an inductive type; a function that
      can raise returns a [result].
    - Calls to the benchmark harness and console output are recorded, in
      program order, in a list of events. *)

From Stdlib Require Import String Ascii List ZArith NArith QArith Bool Lia.
From Stdlib Require Import DecimalString DecimalPos Permutation.

Set Warnings "-register-all".

Import ListNotations.

#[local] Open Scope string_scope.
#[local] Open Scope list_scope.
#[local] Open Scope Z_scope.

(** ** Results of code that may raise *)

Inductive result (E A : Type) : Type :=
| Ok (a : A)
| Raise (e : E).
Arguments Ok {E A} a.
Arguments Raise {E A} e.

Definition bind {E A B} (r : result E A) (k : A -> result E B) : result E B :=
  match r with
  | Ok a => k a
  | Raise e => Raise e
  end.

Declare Scope result_scope.
Delimit Scope result_scope with result.
Notation "x <- r ;; k" := (bind r (fun x => k))
  (at level 61, r at next level, right associativity) : result_scope.
#[local] Open Scope result_scope.

(** ** Python string operations used by the runner *)

Module PyStr.

(** [sep in s] for a one-character [sep]. *)
Fixpoint contains (sep : ascii) (s : string) : bool :=
  match s with
  | EmptyString => false
  | String c rest => if Ascii.eqb c sep then true else contains sep rest
  end.

(** [s.split(sep)] for a one-character [sep]: every occurrence of [sep]
    ends a segment, so [n] separators give [n + 1] segments. *)
Fixpoint split (sep : ascii) (s : string) : list string :=
  match s with
  | EmptyString => [EmptyString]
  | String c rest =>
      if Ascii.eqb c sep then EmptyString :: split sep rest
      else match split sep rest with
           | seg :: segs => String c seg :: segs
           | [] => [String c EmptyString]
           end
  end.

Definition code (c : ascii) : N := N_of_ascii c.

(** Whitespace accepted around an [int] literal: the ASCII characters
    tab, LF, VT, FF, CR and space, and beyond ASCII the Unicode spaces
    (below 256: NEL and NBSP). *)
Definition is_space (c : ascii) : bool :=
  let n := code c in
  ((9 <=? n) && (n <=? 13) || (n =? 32) || (n =? 133) || (n =? 160))%N.

Definition digit_value (c : ascii) : option Z :=
  let n := code c in
  if ((48 <=? n) && (n <=? 57))%N then Some (Z.of_N n - 48) else None.

Fixpoint skip_spaces (s : string) : string :=
  match s with
  | String c rest => if is_space c then skip_spaces rest else s
  | EmptyString => s
  end.

(** The scan of digits and underscores: [None] on a doubled underscore,
    otherwise the value read, the number of digits, whether the last
    character read was an underscore, and the unread rest. *)
Fixpoint scan_digits (prev_underscore : bool) (acc : Z) (digits : N)
         (s : string) : option (Z * N * bool * string) :=
  match s with
  | String c rest =>
      match digit_value c with
      | Some d => scan_digits false (10 * acc + d) (N.succ digits) rest
      | None =>
          if Ascii.eqb c "_" then
            if prev_underscore then None
            else scan_digits true acc digits rest
          else Some (acc, digits, prev_underscore, s)
      end
  | EmptyString => Some (acc, digits, prev_underscore, s)
  end.

(** Default of [sys.int_max_str_digits]. *)
Definition int_max_str_digits : N := 4300.

Definition starts_with_underscore (s : string) : bool :=
  match s with
  | String c _ => Ascii.eqb c "_"
  | EmptyString => false
  end.

(** The digits of an [int] literal and what may follow them: no
    underscore at either end, at least one digit, then only white space,
    and no more digits than the limit. *)
Definition int_digits (s : string) : option Z :=
  if starts_with_underscore s then None
  else
    match scan_digits false 0 0%N s with
    | None => None
    | Some (value, digits, last_underscore, rest) =>
        if last_underscore then None
        else if (digits =? 0)%N then None
        else
          match skip_spaces rest with
          | String _ _ => None
          | EmptyString =>
              if (int_max_str_digits <? digits)%N then None else Some value
          end
    end.

(** [int(s)] in base 10; [None] stands for [ValueError]. *)
Definition int (s : string) : option Z :=
  match skip_spaces s with
  | String c rest =>
      if Ascii.eqb c "+" then int_digits rest
      else if Ascii.eqb c "-" then option_map Z.opp (int_digits rest)
      else int_digits (String c rest)
  | EmptyString => None
  end.

End PyStr.

(** ** [main.py]: parsing of the task selection *)

Inductive error : Type :=
| ValueError_literal (literal : string)
    (* raised by [int(literal)] *)
| ValueError_range (task_arg : string) (max_tasks : Z)
    (* [raise ValueError(f"Invalid task range: ...")] *)
| IndexError.
    (* a list index out of range *)

Definition py_int (s : string) : result error Z :=
  match PyStr.int s with
  | Some z => Ok z
  | None => Raise (ValueError_literal s)
  end.

(** [parts[i]] *)
Definition item {A} (l : list A) (i : nat) : result error A :=
  match nth_error l i with
  | Some a => Ok a
  | None => Raise IndexError
  end.

(** Lines 60-66 of [parse_task_range]: the two bounds as read from the
    argument, before they are validated. *)
Definition parse_bounds (task_arg : string) : result error (Z * Z) :=
  if PyStr.contains "-" task_arg then
    let parts := PyStr.split "-" task_arg in
    p0 <- item parts 0 ;;
    start <- py_int p0 ;;
    p1 <- item parts 1 ;;
    end_ <- py_int p1 ;;
    Ok (start, end_)
  else
    start <- py_int task_arg ;;
    Ok (start, start).

(** Lines 69-72 of [parse_task_range]. *)
Definition validate_range (task_arg : string) (max_tasks : Z)
           (bounds : Z * Z) : result error (Z * Z) :=
  let '(start, end_) := bounds in
  if (start <? 1) || (end_ >? max_tasks) || (start >? end_) then
    Raise (ValueError_range task_arg max_tasks)
  else Ok (start, end_).

Definition parse_task_range (task_arg : string) (max_tasks : Z)
  : result error (Z * Z) :=
  bounds <- parse_bounds task_arg ;;
  validate_range task_arg max_tasks bounds.


(** ** [main.py]: the data of the benchmark harness *)

Record TaskInfo : Type := {
  task_id : string;
  spec_id : string;
  task_text : string
}.

(** [result.eval]: a score and the log that explains it. *)
Record EvalInfo : Type := {
  eval_score : Q;
  eval_logs : string
}.

(** The value of [core.complete_task(task)]; [result_eval] is [None] when
    the harness attached no evaluation. *)
Record TaskResult : Type := {
  result_eval : option EvalInfo
}.

(** The exceptions (instances of Python's [Exception]) that the agent or
    the basket service can raise: the service's own [ApiException], which
    carries a [detail], and every other one, of which only [str(e)] is
    observed. *)
Inductive exception : Type :=
| ApiException (detail : string) (text : string)
| OtherException (text : string).

(** [str(e)] *)
Definition str (e : exception) : string :=
  match e with
  | ApiException _ text => text
  | OtherException text => text
  end.

Inductive Provider : Type := openrouter | gigachat.

Definition provider_name (p : Provider) : string :=
  match p with
  | openrouter => "openrouter"
  | gigachat => "gigachat"
  end.

(** The namespace returned by [parse_args]. *)
Record Args : Type := {
  args_task : option string;
  args_stop_on_fail : bool;
  args_list : bool;
  args_model : option string;
  args_provider : Provider
}.

(** What [main] writes to the console, one constructor per [print]. *)
Inductive console : Type :=
| PrProviderModel (provider : Provider) (model_id : string)
| PrSessionHasTasks (count : nat)
| PrAvailableTasks
| PrListEntry (i : Z) (task : TaskInfo)
| PrRunningTasks (start_idx end_idx : Z)
| PrSeparator
| PrTaskHeader (task_num : Z) (task : TaskInfo)
| PrTaskText (task : TaskInfo)
| PrError (text : string)
| PrScore (score : Q) (logs : string)
| PrStopping (task_num : Z)
| PrSubmitted (session_id : string)
| PrNotSubmitted (completed_count : Z) (total : nat) (session_id : string).

(** What [main] does that is visible from outside, in program order. *)
Inductive event : Type :=
| EvStartSession (benchmark workspace name architecture : string)
                 (flags : list string)
| EvSessionStatus (session_id : string)
| EvStartTask (task : TaskInfo)
| EvRunAgent (model_id : string) (task : TaskInfo) (provider : Provider)
| EvTraceback (e : exception)
| EvCompleteTask (task : TaskInfo)
| EvSubmitSession (session_id : string)
| EvPrint (line : console).

(** The harness client [ERC3()] over a state [World] of the outside
    world, and the agent of [store_agent.py], which either returns
    ([None]) or raises. The calls of the harness are taken to return:
    [main] has no handler around them. *)
Record ERC3 (World : Type) : Type := {
  start_session :
    World -> string -> string -> string -> string -> list string ->
    World * string;
  session_status : World -> string -> World * list TaskInfo;
  start_task : World -> TaskInfo -> World;
  complete_task : World -> TaskInfo -> World * TaskResult;
  submit_session : World -> string -> World;
  run_agent :
    World -> string -> TaskInfo -> Provider -> World * option exception
}.
Arguments start_session {World}.
Arguments session_status {World}.
Arguments start_task {World}.
Arguments complete_task {World}.
Arguments submit_session {World}.
Arguments run_agent {World}.

(** [range(start, stop)] *)
Fixpoint range_from (start : Z) (count : nat) : list Z :=
  match count with
  | O => []
  | S count' => start :: range_from (start + 1) count'
  end.

Definition range (start stop : Z) : list Z :=
  range_from start (Z.to_nat (stop - start)).

(** [l[k]] for a Python list: a negative index counts from the end. *)
Definition getitem {A} (l : list A) (k : Z) : result error A :=
  let len := Z.of_nat (length l) in
  if (0 <=? k) && (k <? len) then item l (Z.to_nat k)
  else if (- len <=? k) && (k <? 0) then item l (Z.to_nat (len + k))
  else Raise IndexError.

(** [[(i, tasks[i-1]) for i in range(start_idx, end_idx + 1)]] *)
Fixpoint select_tasks (tasks : list TaskInfo) (indices : list Z)
  : result error (list (Z * TaskInfo)) :=
  match indices with
  | [] => Ok []
  | i :: indices' =>
      task <- getitem tasks (i - 1) ;;
      rest <- select_tasks tasks indices' ;;
      Ok ((i, task) :: rest)
  end.

(** [enumerate(tasks, first)] *)
Fixpoint enumerate {A} (first : Z) (l : list A) : list (Z * A) :=
  match l with
  | [] => []
  | a :: l' => (first, a) :: enumerate (first + 1) l'
  end.

(** Lines 82-87 of [main]: an absent or empty [-m] selects the default of
    the provider. *)
Definition choose_model (args : Args) : string :=
  match args_model args with
  | Some (String c m) => String c m
  | _ =>
      match args_provider args with
      | gigachat => "GigaChat-2-Max"
      | openrouter => "openai/gpt-4o"
      end
  end.

(** Lines 112-118 of [main]: [run_all] and [tasks_to_run]. An empty [-t]
    is not [None] but is false, so it selects every task. *)
Definition run_all (args : Args) : bool :=
  match args_task args with
  | None => true
  | Some _ => false
  end.

Definition tasks_to_run (args : Args) (tasks : list TaskInfo)
  : result error (list event * list (Z * TaskInfo)) :=
  match args_task args with
  | Some (String c s) =>
      bounds <- parse_task_range (String c s) (Z.of_nat (length tasks)) ;;
      selected <- select_tasks tasks (range (fst bounds) (snd bounds + 1)) ;;
      Ok ([EvPrint (PrRunningTasks (fst bounds) (snd bounds))], selected)
  | _ => Ok ([], map (fun it => (fst it + 1, snd it)) (enumerate 0 tasks))
  end.

Section Runner.

Context {World : Type}.
Variable core : ERC3 World.
Variable args : Args.
Variable model_id : string.

(** [score = 0; if result.eval: score = result.eval.score] *)
Definition score_of (r : TaskResult) : Q :=
  match result_eval r with
  | Some ev => eval_score ev
  | None => 0%Q
  end.

(** Lines 132-135: the handler of [except Exception as e]. *)
Definition on_exception (raised : option exception) : list event :=
  match raised with
  | Some e => [EvPrint (PrError (str e)); EvTraceback e]
  | None => []
  end.

(** Lines 141-144: the score and its log are printed when there is an
    evaluation. *)
Definition report_score (r : TaskResult) : list event :=
  match result_eval r with
  | Some ev => [EvPrint (PrScore (eval_score ev) (eval_logs ev))]
  | None => []
  end.

(** Lines 125-129: the task is announced and started. *)
Definition announce_task (task_num : Z) (task : TaskInfo) : list event :=
  [EvPrint PrSeparator; EvPrint (PrTaskHeader task_num task);
   EvPrint (PrTaskText task); EvStartTask task].

(** Lines 125-144: one iteration of the loop over [tasks_to_run], up to
    the test that may leave the loop. *)
Definition loop_body (w : World) (task_num : Z) (task : TaskInfo)
  : World * list event * Q :=
  let w1 := start_task core w task in
  let '(w2, raised) := run_agent core w1 model_id task (args_provider args) in
  let '(w3, r) := complete_task core w2 task in
  (w3,
   announce_task task_num task
   ++ [EvRunAgent model_id task (args_provider args)]
   ++ on_exception raised ++ [EvCompleteTask task] ++ report_score r,
   score_of r).

(** The state of the loop when it is left. *)
Record LoopEnd : Type := {
  end_world : World;
  end_events : list event;
  completed_count : Z;
  stopped_early : bool
}.

(** Lines 121-150: the loop, with its [break]. *)
Fixpoint run_tasks (w : World) (to_run : list (Z * TaskInfo)) (count : Z)
  : LoopEnd :=
  match to_run with
  | [] => {| end_world := w; end_events := [];
             completed_count := count; stopped_early := false |}
  | (task_num, task) :: rest =>
      let '(w', evs, score) := loop_body w task_num task in
      if args_stop_on_fail args && Qeq_bool score 0 then
        {| end_world := w';
           end_events := evs ++ [EvPrint (PrStopping task_num)];
           completed_count := count + 1;
           stopped_early := true |}
      else
        let tail := run_tasks w' rest (count + 1) in
        {| end_world := end_world tail;
           end_events := evs ++ end_events tail;
           completed_count := completed_count tail;
           stopped_early := stopped_early tail |}
  end.

(** Lines 152-158: the session is submitted, or not. *)
Definition finish (session_id : string) (total : nat) (e : LoopEnd)
  : World * list event :=
  if run_all args && negb (stopped_early e) then
    (submit_session core (end_world e) session_id,
     [EvSubmitSession session_id; EvPrint (PrSubmitted session_id)])
  else
    (end_world e,
     [EvPrint (PrNotSubmitted (completed_count e) total session_id)]).

End Runner.

(** [main()], given the parsed command line: the final state of the
    world, the events in program order, and how [main] ended. *)
Definition main {World} (core : ERC3 World) (w : World) (args : Args)
  : World * list event * result error unit :=
  let model_id := choose_model args in
  let name := ("LangChain Agent (" ++ model_id ++ ")")%string in
  let architecture :=
    ("LangChain create_agent with "
     ++ provider_name (args_provider args))%string in
  let flags := ["compete_accuracy"] in
  let '(w1, session_id) :=
    start_session core w "store" "my" name architecture flags in
  let '(w2, tasks) := session_status core w1 session_id in
  let opening :=
    [EvStartSession "store" "my" name architecture flags;
     EvPrint (PrProviderModel (args_provider args) model_id);
     EvSessionStatus session_id;
     EvPrint (PrSessionHasTasks (length tasks))] in
  if args_list args then
    (w2,
     opening ++ [EvPrint PrAvailableTasks]
     ++ map (fun it => EvPrint (PrListEntry (fst it) (snd it)))
            (enumerate 1 tasks),
     Ok tt)
  else
    match tasks_to_run args tasks with
    | Raise e => (w2, opening, Raise e)
    | Ok (announce, to_run) =>
        let e := run_tasks core args model_id w2 to_run 0 in
        let '(w3, closing) := finish core args session_id (length tasks) e in
        (w3, opening ++ announce ++ end_events e ++ closing, Ok tt)
    end.

(** ** [store_agent.py]: JSON values and their text *)

Inductive json : Type :=
| JNull
| JBool (b : bool)
| JInt (z : Z)
| JFloat (repr : string)
| JStr (s : string)
| JArr (items : list json)
| JObj (members : list (string * json)).

Module Json.

Definition dquote : ascii := "034"%char.
Definition backslash : ascii := "092"%char.

Definition hex_digit (n : N) : ascii :=
  if (n <? 10)%N then ascii_of_N (48 + n) else ascii_of_N (87 + n).

(** [\u00xy] for a code point below 256. *)
Definition escape_u (c : ascii) : string :=
  String backslash
    (String "u" (String "0" (String "0"
      (String (hex_digit (PyStr.code c / 16))
        (String (hex_digit (PyStr.code c mod 16)) EmptyString))))).

(** The two-character escapes that both writers share. *)
Definition short_escape (c : ascii) : option ascii :=
  let n := PyStr.code c in
  if (n =? 34)%N then Some dquote
  else if (n =? 92)%N then Some backslash
  else if (n =? 8)%N then Some "b"%char
  else if (n =? 9)%N then Some "t"%char
  else if (n =? 10)%N then Some "n"%char
  else if (n =? 12)%N then Some "f"%char
  else if (n =? 13)%N then Some "r"%char
  else None.

(** [json.dumps] with [ensure_ascii]: only the characters from space to
    tilde stay as they are. *)
Definition escape_ascii (c : ascii) : string :=
  match short_escape c with
  | Some x => String backslash (String x EmptyString)
  | None =>
      let n := PyStr.code c in
      if ((32 <=? n) && (n <=? 126))%N then String c EmptyString
      else escape_u c
  end.

(** The writer behind [model_dump_json]: only control characters are
    escaped. *)
Definition escape_control (c : ascii) : string :=
  match short_escape c with
  | Some x => String backslash (String x EmptyString)
  | None =>
      if (PyStr.code c <? 32)%N then escape_u c else String c EmptyString
  end.

Record style : Type := {
  item_separator : string;
  key_separator : string;
  escape : ascii -> string
}.

(** [json.dumps(obj)]: separators [", "] and [": "]. *)
Definition python_default : style :=
  {| item_separator := ", "; key_separator := ": ";
     escape := escape_ascii |}.

(** [model_dump_json()] without [indent]: no white space between tokens. *)
Definition compact : style :=
  {| item_separator := ","; key_separator := ":";
     escape := escape_control |}.

Fixpoint escape_all (esc : ascii -> string) (s : string) : string :=
  match s with
  | EmptyString => EmptyString
  | String c rest => (esc c ++ escape_all esc rest)%string
  end.

Definition quote (st : style) (s : string) : string :=
  String dquote (escape_all (escape st) s ++ String dquote EmptyString)%string.

Definition decimal (z : Z) : string :=
  DecimalString.NilZero.string_of_int (Z.to_int z).

Fixpoint write (st : style) (j : json) : string :=
  match j with
  | JNull => "null"
  | JBool true => "true"
  | JBool false => "false"
  | JInt z => decimal z
  | JFloat repr => repr
  | JStr s => quote st s
  | JArr items =>
      ("["
       ++ (fix go (l : list json) : string :=
             match l with
             | [] => ""
             | x :: rest =>
                 match rest with
                 | [] => write st x
                 | _ :: _ => write st x ++ item_separator st ++ go rest
                 end
             end) items
       ++ "]")%string
  | JObj members =>
      ("{"
       ++ (fix go (l : list (string * json)) : string :=
             match l with
             | [] => ""
             | (k, x) :: rest =>
                 let member := quote st k ++ key_separator st ++ write st x in
                 match rest with
                 | [] => member
                 | _ :: _ => member ++ item_separator st ++ go rest
                 end
             end) members
       ++ "}")%string
  end.

End Json.

(** [json.dumps(obj)] *)
Definition json_dumps (j : json) : string := Json.write Json.python_default j.

(** [error_json(message)] *)
Definition error_json (message : string) : string :=
  json_dumps (JObj [("error", JStr message)]).

(** ** [store_agent.py]: responses of the basket service *)

(** A response is a pydantic model: its fields in declaration order, each
    with the name it is written under, whether it was set when the model
    was built, and its value. A float is kept as the text it is written
    with. *)
Inductive value : Type :=
| VNone
| VBool (b : bool)
| VInt (z : Z)
| VFloat (repr : string)
| VStr (s : string)
| VList (items : list value)
| VModel (fields : list (string * bool * value)).

Definition model : Type := list (string * bool * value).

Definition field_name (f : string * bool * value) : string := fst (fst f).
Definition field_set (f : string * bool * value) : bool := snd (fst f).
Definition field_value (f : string * bool * value) : value := snd f.

Definition is_none (v : value) : bool :=
  match v with
  | VNone => true
  | _ => false
  end.

(** A field is written unless a flag excludes it. *)
Definition kept (exclude_none exclude_unset : bool)
           (f : string * bool * value) : bool :=
  negb (exclude_unset && negb (field_set f))
  && negb (exclude_none && is_none (field_value f)).

Fixpoint dump (exclude_none exclude_unset : bool) (v : value) : json :=
  match v with
  | VNone => JNull
  | VBool b => JBool b
  | VInt z => JInt z
  | VFloat repr => JFloat repr
  | VStr s => JStr s
  | VList items => JArr (map (dump exclude_none exclude_unset) items)
  | VModel fields =>
      JObj
        ((fix go (fs : list (string * bool * value)) : list (string * json) :=
            match fs with
            | [] => []
            | f :: fs' =>
                if kept exclude_none exclude_unset f then
                  (field_name f, dump exclude_none exclude_unset (field_value f))
                  :: go fs'
                else go fs'
            end) fields)
  end.

(** Induction on values, through the lists that they nest. *)
Section ValueInduction.

Variable P : value -> Prop.
Hypothesis P_none : P VNone.
Hypothesis P_bool : forall b, P (VBool b).
Hypothesis P_int : forall z, P (VInt z).
Hypothesis P_float : forall repr, P (VFloat repr).
Hypothesis P_str : forall s, P (VStr s).
Hypothesis P_list : forall items, Forall P items -> P (VList items).
Hypothesis P_model :
  forall fields,
    Forall (fun f => P (field_value f)) fields -> P (VModel fields).

Fixpoint value_induction (v : value) : P v :=
  match v with
  | VNone => P_none
  | VBool b => P_bool b
  | VInt z => P_int z
  | VFloat repr => P_float repr
  | VStr s => P_str s
  | VList items =>
      P_list items
        ((fix go (l : list value) : Forall P l :=
            match l with
            | [] => Forall_nil P
            | x :: l' => Forall_cons x (value_induction x) (go l')
            end) items)
  | VModel fields =>
      P_model fields
        ((fix go (l : list (string * bool * value))
            : Forall (fun f => P (field_value f)) l :=
            match l with
            | [] => Forall_nil _
            | f :: l' =>
                Forall_cons (P := fun f => P (field_value f)) f
                  (value_induction (field_value f)) (go l')
            end) fields)
  end.

End ValueInduction.

(** [result.model_dump(exclude_none=..., exclude_unset=...)] *)
Definition model_dump (exclude_none exclude_unset : bool) (m : model) : json :=
  dump exclude_none exclude_unset (VModel m).

(** [result.model_dump_json(exclude_none=..., exclude_unset=...)] *)
Definition model_dump_json (exclude_none exclude_unset : bool) (m : model)
  : string :=
  Json.write Json.compact (model_dump exclude_none exclude_unset m).

(** A JSON value in which no object, at any depth, has a member whose
    value is [null]. *)
Definition is_null (j : json) : bool :=
  match j with
  | JNull => true
  | _ => false
  end.

Fixpoint no_null_member (j : json) : bool :=
  match j with
  | JArr items => forallb no_null_member items
  | JObj members =>
      forallb (fun kv => negb (is_null (snd kv)) && no_null_member (snd kv))
              members
  | _ => true
  end.

(** ** [store_agent.py]: the tool adapters *)

(** The request objects of the [store] module. *)
Inductive Req : Type :=
| Req_ListProducts (offset limit : Z)
| Req_ViewBasket
| Req_AddProductToBasket (sku : string) (quantity : Z)
| Req_RemoveItemFromBasket (sku : string) (quantity : Z)
| Req_ApplyCoupon (coupon : string)
| Req_RemoveCoupon
| Req_CheckoutBasket.

(** [store_api.dispatch]: the response, or the exception it raises. *)
Definition StoreClient : Type := Req -> result exception model.

(** What an adapter writes to the console. *)
Inductive tool_console : Type :=
| ToolCalled (req : Req) (shown : string)
| ToolErr (tool : string) (detail : string)
| ToolException (tool : string) (text : string)
| ToolTraceback (e : exception).

(** [txt[:300]] followed by an ellipsis when [txt] is longer. *)
Definition shorten (txt : string) : string :=
  (substring 0 300 txt
   ++ (if (300 <? String.length txt)%nat then "..." else ""))%string.

Section Adapters.

Variable store_api : StoreClient.

Definition list_products (offset limit : Z) : list tool_console * string :=
  let req := Req_ListProducts offset limit in
  match store_api req with
  | Ok result =>
      let txt := model_dump_json true true result in
      ([ToolCalled req (shorten txt)], txt)
  | Raise (ApiException detail _) =>
      ([ToolErr "list_products" detail], error_json detail)
  | Raise e =>
      ([ToolException "list_products" (str e); ToolTraceback e],
       error_json (str e))
  end.

Definition view_basket : list tool_console * string :=
  let req := Req_ViewBasket in
  match store_api req with
  | Ok result =>
      let txt := model_dump_json true true result in
      ([ToolCalled req txt], txt)
  | Raise (ApiException detail _) =>
      ([ToolErr "view_basket" detail], error_json detail)
  | Raise e =>
      ([ToolException "view_basket" (str e); ToolTraceback e],
       error_json (str e))
  end.

Definition add_product_to_basket (sku : string) (quantity : Z)
  : list tool_console * string :=
  let req := Req_AddProductToBasket sku quantity in
  match store_api req with
  | Ok result =>
      let txt := model_dump_json true true result in
      ([ToolCalled req txt], txt)
  | Raise (ApiException detail _) =>
      ([ToolErr "add_product_to_basket" detail], error_json detail)
  | Raise e =>
      ([ToolException "add_product_to_basket" (str e); ToolTraceback e],
       error_json (str e))
  end.

Definition remove_item_from_basket (sku : string) (quantity : Z)
  : list tool_console * string :=
  let req := Req_RemoveItemFromBasket sku quantity in
  match store_api req with
  | Ok result =>
      let txt := model_dump_json true true result in
      ([ToolCalled req txt], txt)
  | Raise (ApiException detail _) =>
      ([ToolErr "remove_item_from_basket" detail], error_json detail)
  | Raise e =>
      ([ToolException "remove_item_from_basket" (str e); ToolTraceback e],
       error_json (str e))
  end.

Definition apply_coupon (coupon : string) : list tool_console * string :=
  let req := Req_ApplyCoupon coupon in
  match store_api req with
  | Ok result =>
      let txt := model_dump_json true true result in
      ([ToolCalled req txt], txt)
  | Raise (ApiException detail _) =>
      ([ToolErr "apply_coupon" detail], error_json detail)
  | Raise e =>
      ([ToolException "apply_coupon" (str e); ToolTraceback e],
       error_json (str e))
  end.

Definition remove_coupon : list tool_console * string :=
  let req := Req_RemoveCoupon in
  match store_api req with
  | Ok result =>
      let txt := model_dump_json true true result in
      ([ToolCalled req txt], txt)
  | Raise (ApiException detail _) =>
      ([ToolErr "remove_coupon" detail], error_json detail)
  | Raise e =>
      ([ToolException "remove_coupon" (str e); ToolTraceback e],
       error_json (str e))
  end.

Definition checkout_basket : list tool_console * string :=
  let req := Req_CheckoutBasket in
  match store_api req with
  | Ok result =>
      let txt := model_dump_json true true result in
      ([ToolCalled req txt], txt)
  | Raise (ApiException detail _) =>
      ([ToolErr "checkout_basket" detail], error_json detail)
  | Raise e =>
      ([ToolException "checkout_basket" (str e); ToolTraceback e],
       error_json (str e))
  end.

End Adapters.

(** A call of one of the seven tools that [create_store_tools] returns,
    with its arguments. *)
Inductive tool_call : Type :=
| Call_list_products (offset limit : Z)
| Call_view_basket
| Call_add_product_to_basket (sku : string) (quantity : Z)
| Call_remove_item_from_basket (sku : string) (quantity : Z)
| Call_apply_coupon (coupon : string)
| Call_remove_coupon
| Call_checkout_basket.

Definition create_store_tools (store_api : StoreClient) (call : tool_call)
  : list tool_console * string :=
  match call with
  | Call_list_products offset limit => list_products store_api offset limit
  | Call_view_basket => view_basket store_api
  | Call_add_product_to_basket sku quantity =>
      add_product_to_basket store_api sku quantity
  | Call_remove_item_from_basket sku quantity =>
      remove_item_from_basket store_api sku quantity
  | Call_apply_coupon coupon => apply_coupon store_api coupon
  | Call_remove_coupon => remove_coupon store_api
  | Call_checkout_basket => checkout_basket store_api
  end.

(** The request that a tool call dispatches. *)
Definition request_of (call : tool_call) : Req :=
  match call with
  | Call_list_products offset limit => Req_ListProducts offset limit
  | Call_view_basket => Req_ViewBasket
  | Call_add_product_to_basket sku quantity =>
      Req_AddProductToBasket sku quantity
  | Call_remove_item_from_basket sku quantity =>
      Req_RemoveItemFromBasket sku quantity
  | Call_apply_coupon coupon => Req_ApplyCoupon coupon
  | Call_remove_coupon => Req_RemoveCoupon
  | Call_checkout_basket => Req_CheckoutBasket
  end.

(** The message of a failure as the adapters report it: [e.detail] of an
    [ApiException], [str(e)] of any other exception. *)
Definition message (e : exception) : string :=
  match e with
  | ApiException detail _ => detail
  | OtherException text => text
  end.

(** The task list that [main] reads from the session status. *)
Definition session_tasks {World} (core : ERC3 World) (w : World) (args : Args)
  : list TaskInfo :=
  let model_id := choose_model args in
  let name := ("LangChain Agent (" ++ model_id ++ ")")%string in
  let architecture :=
    ("LangChain create_agent with "
     ++ provider_name (args_provider args))%string in
  let '(w1, session_id) :=
    start_session core w "store" "my" name architecture
                  ["compete_accuracy"] in
  snd (session_status core w1 session_id).

Definition run_events {World} (core : ERC3 World) (w : World) (args : Args)
  : list event :=
  snd (fst (main core w args)).

Definition run_outcome {World} (core : ERC3 World) (w : World) (args : Args)
  : result error unit :=
  snd (main core w args).

(** ** What a run shows: projections of the event list *)

Definition is_start (ev : event) : option TaskInfo :=
  match ev with EvStartTask t => Some t | _ => None end.

Definition is_complete (ev : event) : option TaskInfo :=
  match ev with EvCompleteTask t => Some t | _ => None end.

Definition is_agent_run (ev : event) : option TaskInfo :=
  match ev with EvRunAgent _ t _ => Some t | _ => None end.

Fixpoint pick {A B} (f : A -> option B) (l : list A) : list B :=
  match l with
  | [] => []
  | a :: l' =>
      match f a with
      | Some b => b :: pick f l'
      | None => pick f l'
      end
  end.

(** The tasks given to [core.start_task], [run_agent] and
    [core.complete_task], in the order of the calls. *)
Definition started (evs : list event) : list TaskInfo := pick is_start evs.
Definition agent_runs (evs : list event) : list TaskInfo :=
  pick is_agent_run evs.
Definition completed (evs : list event) : list TaskInfo :=
  pick is_complete evs.

(** Whether [core.submit_session] was called. *)
Definition submitted (evs : list event) : bool :=
  existsb (fun ev => match ev with EvSubmitSession _ => true | _ => false end)
          evs.

(** Whether the loop was left by the stop-on-fail [break]. *)
Definition stopped (evs : list event) : bool :=
  existsb
    (fun ev => match ev with EvPrint (PrStopping _) => true | _ => false end)
    evs.

(** Tasks started and not yet completed. *)
Definition in_progress (evs : list event) : Z :=
  Z.of_nat (length (started evs)) - Z.of_nat (length (completed evs)).

Section Trajectory.

Context {World : Type}.
Variable core : ERC3 World.
Variable args : Args.
Variable model_id : string.

(** The events of one iteration, given what the agent and the harness
    answer. *)
Definition body_events (task_num : Z) (task : TaskInfo)
           (raised : option exception) (r : TaskResult) : list event :=
  announce_task task_num task
  ++ [EvRunAgent model_id task (args_provider args)]
  ++ on_exception raised ++ [EvCompleteTask task] ++ report_score r.

(** The results that [complete_task] gives when the tasks of a list run
    one after the other and nothing leaves the loop. *)
Fixpoint results (w : World) (to_run : list (Z * TaskInfo))
  : list TaskResult :=
  match to_run with
  | [] => []
  | (task_num, task) :: rest =>
      let w1 := start_task core w task in
      let w2 := fst (run_agent core w1 model_id task (args_provider args)) in
      let '(w3, r) := complete_task core w2 task in
      r :: results w3 rest
  end.

Definition scores (w : World) (to_run : list (Z * TaskInfo)) : list Q :=
  map score_of (results w to_run).

End Trajectory.

(** Position of the first score that equals 0. *)
Fixpoint first_zero (l : list Q) : option nat :=
  match l with
  | [] => None
  | s :: l' =>
      if Qeq_bool s 0 then Some O else option_map S (first_zero l')
  end.

(** ** A small world to run the definitions in *)

Module Demo.

Definition t1 : TaskInfo :=
  {| task_id := "t1"; spec_id := "soda"; task_text := "Buy 24 sodas" |}.
Definition t2 : TaskInfo :=
  {| task_id := "t2"; spec_id := "coupon"; task_text := "Buy the cheapest" |}.
Definition t3 : TaskInfo :=
  {| task_id := "t3"; spec_id := "empty"; task_text := "Buy nothing" |}.

Definition tasks : list TaskInfo := [t1; t2; t3].

(** The run list of a run without [-t]. *)
Definition numbered : list (Z * TaskInfo) := [(1, t1); (2, t2); (3, t3)].

(** The world counts the completed tasks. The agent raises on [t2]; the
    harness scores [t1] with 1, gives no evaluation for [t2] and scores
    [t3] with 0. *)
Definition core : ERC3 nat :=
  {| start_session := fun w _ _ _ _ _ => (w, "session-1");
     session_status := fun w _ => (w, tasks);
     start_task := fun w _ => w;
     complete_task := fun w t =>
       (S w,
        if String.eqb (task_id t) "t1" then
          {| result_eval := Some {| eval_score := 1; eval_logs := "ok" |} |}
        else if String.eqb (task_id t) "t2" then
          {| result_eval := None |}
        else
          {| result_eval := Some {| eval_score := 0; eval_logs := "no" |} |});
     submit_session := fun w _ => w;
     run_agent := fun w _ t _ =>
       (w,
        if String.eqb (task_id t) "t2" then Some (OtherException "boom")
        else None) |}.

Definition args (task : option string) (stop_on_fail list_mode : bool)
  : Args :=
  {| args_task := task; args_stop_on_fail := stop_on_fail;
     args_list := list_mode; args_model := None;
     args_provider := openrouter |}.

(** A basket service that answers every request alike. *)
Definition always (r : result exception model) : StoreClient := fun _ => r.

Definition basket : model :=
  [("Items", true, VList []);
   ("Coupon", true, VNone);
   ("Discount", false, VInt 0);
   ("Total", true, VFloat "0.0")].

(** Text written with apostrophes for the double quotes of JSON. *)
Fixpoint quoted (s : string) : string :=
  match s with
  | EmptyString => EmptyString
  | String c rest =>
      String (if Ascii.eqb c "'" then Json.dquote else c) (quoted rest)
  end.

End Demo.

(** ** Characters of an [int] literal *)

Fixpoint all_chars (p : ascii -> bool) (s : string) : bool :=
  match s with
  | EmptyString => true
  | String c rest => p c && all_chars p rest
  end.

Definition is_digit (c : ascii) : bool :=
  match PyStr.digit_value c with
  | Some _ => true
  | None => false
  end.

(** The characters that can occur in a string that [int] accepts: digits,
    white space, a sign and the underscore. *)
Definition int_char (c : ascii) : bool :=
  is_digit c || PyStr.is_space c
  || Ascii.eqb c "+" || Ascii.eqb c "-" || Ascii.eqb c "_".

(** ** [main.py]: the range as [main] prints it *)

(** [f"{start_idx}-{end_idx}"], the range in the line that [main] prints
    before it runs a selection, and the form that the help of [-t]
    gives. *)
Definition range_text (start_idx end_idx : Z) : string :=
  (Json.decimal start_idx ++ "-" ++ Json.decimal end_idx)%string.

(** ** [store_agent.py]: the characters of JSON text *)

(** The characters from space to tilde. *)
Definition printable (c : ascii) : bool :=
  ((32 <=? PyStr.code c) && (PyStr.code c <=? 126))%N.

Definition hex_value (c : ascii) : option N :=
  let n := PyStr.code c in
  if ((48 <=? n) && (n <=? 57))%N then Some (n - 48)%N
  else if ((97 <=? n) && (n <=? 102))%N then Some (n - 87)%N
  else None.

(** Reading back one escaped character from the front of the inside of
    a JSON string; [None] at a double quote that is not escaped. *)
Definition read_escaped (s : string) : option (ascii * string) :=
  match s with
  | EmptyString => None
  | String c rest =>
      if Ascii.eqb c Json.dquote then None
      else if Ascii.eqb c Json.backslash then
        match rest with
        | String x rest' =>
            if Ascii.eqb x Json.dquote then Some (Json.dquote, rest')
            else if Ascii.eqb x Json.backslash then
              Some (Json.backslash, rest')
            else if Ascii.eqb x "b" then Some ("008"%char, rest')
            else if Ascii.eqb x "t" then Some ("009"%char, rest')
            else if Ascii.eqb x "n" then Some ("010"%char, rest')
            else if Ascii.eqb x "f" then Some ("012"%char, rest')
            else if Ascii.eqb x "r" then Some ("013"%char, rest')
            else if Ascii.eqb x "u" then
              match rest' with
              | String _ (String _ (String h (String l rest''))) =>
                  match hex_value h, hex_value l with
                  | Some a, Some b => Some (ascii_of_N (16 * a + b), rest'')
                  | _, _ => None
                  end
              | _ => None
              end
            else None
        | EmptyString => None
        end
      else Some (c, rest)
  end.

(** ** [store_agent.py]: the usage that [run_agent] sums *)





(** ** [main.py]: the events that the loop can give *)

(** What an event of the loop over [to_run] looks like, when the agent
    runs under [model_id] and [provider]. *)
Definition loop_event (model_id : string) (provider : Provider)
           (to_run : list (Z * TaskInfo)) (ev : event) : Prop :=
  match ev with
  | EvStartTask t => In t (map snd to_run)
  | EvRunAgent m t p => m = model_id /\ p = provider /\ In t (map snd to_run)
  | EvCompleteTask t => In t (map snd to_run)
  | EvTraceback _ => True
  | EvPrint PrSeparator => True
  | EvPrint (PrTaskHeader n t) => In (n, t) to_run
  | EvPrint (PrTaskText t) => In t (map snd to_run)
  | EvPrint (PrError _) => True
  | EvPrint (PrScore _ _) => True
  | EvPrint (PrStopping n) => In n (map fst to_run)
  | _ => False
  end.

(** ** [main.py]: results that stop a run, lines that close it *)

(** A result that the stop-on-fail test takes as a failure: its
    evaluation has a score equal to 0, or it has no evaluation. *)
Definition zero_scored (r : TaskResult) : bool :=
  match result_eval r with
  | Some ev => Qeq_bool (eval_score ev) 0
  | None => true
  end.

(** Position of the first element that satisfies [p]. *)
Fixpoint first_where {A} (p : A -> bool) (l : list A) : option nat :=
  match l with
  | [] => None
  | a :: l' => if p a then Some O else option_map S (first_where p l')
  end.

(** The events of lines 152-158: the call that submits the session and
    the two messages on whether it was submitted. *)
Definition closing_line (ev : event) : bool :=
  match ev with
  | EvSubmitSession _ => true
  | EvPrint (PrSubmitted _) => true
  | EvPrint (PrNotSubmitted _ _ _) => true
  | _ => false
  end.

(** * Properties *)

(** ** Running the definitions *)

Example parse_single : parse_task_range "3" 10 = Ok (3, 3).
Proof. reflexivity. Qed.

Example parse_range : parse_task_range "1-5" 10 = Ok (1, 5).
Proof. reflexivity. Qed.

Example parse_spaces_and_sign : parse_task_range " +1_0 " 10 = Ok (10, 10).
Proof. reflexivity. Qed.

Example parse_out_of_range :
  parse_task_range "3" 2 = Raise (ValueError_range "3" 2).
Proof. reflexivity. Qed.

Example parse_trailing_dash :
  parse_task_range "3-" 10 = Raise (ValueError_literal "").
Proof. reflexivity. Qed.

Example int_table :
  map PyStr.int
      ["3"; " +1_0 "; "_1"; "1_"; "1__0"; "+ 1"; "-0"; ""; "+"; "-"; "1.5";
       "0_0"; "12a"]
  = [Some 3; Some 10; None; None; None; None; Some 0; None; None; None; None;
     Some 0; None].
Proof. reflexivity. Qed.

(** Tab and line feed are skipped, as are NEL and NBSP; the ASCII
    separators 28 to 31 and NUL are not. *)
Example int_white_space :
  PyStr.int (String "009" (String "7" (String "010" ""))) = Some 7
  /\ PyStr.int (String "5" (String "011" "")) = Some 5
  /\ PyStr.int (String "133" "5") = Some 5
  /\ PyStr.int (String "160" "5") = Some 5
  /\ PyStr.int (String "028" "5") = None
  /\ PyStr.int (String "000" "7") = None.
Proof. repeat split; reflexivity. Qed.

Example int_digit_limit :
  PyStr.int (string_of_list_ascii (repeat "1"%char 4300)) <> None
  /\ PyStr.int (string_of_list_ascii (repeat "1"%char 4301)) = None.
Proof. split; [vm_compute; discriminate | vm_compute; reflexivity]. Qed.

Example split_table :
  map (PyStr.split "-") ["1-2-3"; "-3"; ""; "3-"; "--"; "12"]
  = [["1"; "2"; "3"]; [""; "3"]; [""]; ["3"; ""]; [""; ""; ""]; ["12"]].
Proof. reflexivity. Qed.

Example error_json_escapes :
  error_json
    ("a" ++ String Json.dquote "b\c"
     ++ String "010" (String "127" (String "031" (String "233" " /"))))
  = Demo.quoted "{'error': 'a\'b\\c\n\u007f\u001f\u00e9 /'}".
Proof. reflexivity. Qed.

Example json_dumps_nested :
  json_dumps (JObj [("a", JArr [JInt 1; JInt (-2)]);
                    ("b", JObj [("c", JNull)])])
  = Demo.quoted "{'a': [1, -2], 'b': {'c': null}}".
Proof. reflexivity. Qed.

Example error_json_text :
  error_json "no such SKU" = Demo.quoted "{'error': 'no such SKU'}".
Proof. reflexivity. Qed.

Example view_basket_text :
  snd (view_basket (Demo.always (Ok Demo.basket)))
  = Demo.quoted "{'Items':[],'Total':0.0}".
Proof. reflexivity. Qed.

(** A field that is set is written also when its value is an empty list
    or an empty string; only [None] and unset fields are left out. *)
Example empty_values_are_written :
  model_dump true true
    [("Items", true, VList []); ("Coupon", true, VStr "");
     ("Note", true, VNone); ("Discount", false, VInt 0)]
  = JObj [("Items", JArr []); ("Coupon", JStr "")].
Proof. reflexivity. Qed.

Example run_all_tasks :
  let '(_, evs, _) := main Demo.core O (Demo.args None false false) in
  started evs = Demo.tasks /\ completed evs = Demo.tasks
  /\ submitted evs = true.
Proof. vm_compute. repeat split; reflexivity. Qed.

(** ** [parse_task_range] *)

Lemma split_not_nil (sep : ascii) (s : string) : PyStr.split sep s <> [].
Proof.
  destruct s as [|c rest]; simpl; [discriminate|].
  destruct (Ascii.eqb c sep); [discriminate|].
  destruct (PyStr.split sep rest); discriminate.
Qed.

(** Without a separator the string is its only segment. *)
Lemma split_without_separator (sep : ascii) (s : string) :
  PyStr.contains sep s = false -> PyStr.split sep s = [s].
Proof.
  induction s as [|c rest IH]; simpl; [reflexivity|].
  destruct (Ascii.eqb c sep); [discriminate|].
  intros H. rewrite (IH H). reflexivity.
Qed.

(** With a separator there are at least two segments. *)
Lemma split_with_separator (sep : ascii) (s : string) :
  PyStr.contains sep s = true ->
  exists p0 p1 more, PyStr.split sep s = p0 :: p1 :: more.
Proof.
  induction s as [|c rest IH]; simpl; [discriminate|].
  destruct (Ascii.eqb c sep).
  - intros _. destruct (PyStr.split sep rest) as [|p1 more] eqn:E.
    + now apply split_not_nil in E.
    + now exists EmptyString, p1, more.
  - intros H. destruct (IH H) as (p0 & p1 & more & E). rewrite E.
    now exists (String c p0), p1, more.
Qed.

Lemma two_segments_contain_separator (sep : ascii) (s p0 p1 : string)
      (more : list string) :
  PyStr.split sep s = p0 :: p1 :: more -> PyStr.contains sep s = true.
Proof.
  intros E. destruct (PyStr.contains sep s) eqn:C; [reflexivity|].
  rewrite (split_without_separator _ _ C) in E. discriminate.
Qed.

(** The bounds are read from the first two segments alone. *)
Lemma parse_bounds_segments {task_arg p0 p1 : string} {more : list string} :
  PyStr.split "-" task_arg = p0 :: p1 :: more ->
  parse_bounds task_arg
  = (start <- py_int p0 ;; end_ <- py_int p1 ;; Ok (start, end_)).
Proof.
  intros E. unfold parse_bounds.
  rewrite (two_segments_contain_separator _ _ _ _ _ E), E. reflexivity.
Qed.

Lemma parse_bounds_first_segment {task_arg p0 : string} {rest : list string} :
  PyStr.split "-" task_arg = p0 :: rest ->
  PyStr.int p0 = None ->
  parse_bounds task_arg = Raise (ValueError_literal p0).
Proof.
  intros E H. unfold parse_bounds.
  destruct (PyStr.contains "-" task_arg) eqn:C.
  - rewrite E. simpl. unfold py_int. rewrite H. reflexivity.
  - rewrite (split_without_separator _ _ C) in E.
    injection E as -> _. unfold py_int. rewrite H. reflexivity.
Qed.

Lemma validate_range_ok (task_arg : string) (max_tasks start end_ : Z) :
  1 <= start -> start <= end_ -> end_ <= max_tasks ->
  validate_range task_arg max_tasks (start, end_) = Ok (start, end_).
Proof.
  intros H1 H2 H3. unfold validate_range.
  replace (start <? 1) with false by lia.
  replace (end_ >? max_tasks) with false by lia.
  replace (start >? end_) with false by lia.
  reflexivity.
Qed.

Lemma validate_range_raises (task_arg : string) (max_tasks start end_ : Z) :
  start < 1 \/ end_ > max_tasks \/ start > end_ ->
  validate_range task_arg max_tasks (start, end_)
  = Raise (ValueError_range task_arg max_tasks).
Proof.
  intros H. unfold validate_range.
  destruct (start <? 1) eqn:E1; [reflexivity|].
  destruct (end_ >? max_tasks) eqn:E2; [reflexivity|].
  destruct (start >? end_) eqn:E3; [reflexivity|].
  lia.
Qed.

(** A pair is returned only when it is a range within the tasks. *)
Lemma parse_task_range_returns (task_arg : string) (max_tasks start end_ : Z) :
  parse_task_range task_arg max_tasks = Ok (start, end_) <->
  parse_bounds task_arg = Ok (start, end_)
  /\ 1 <= start /\ start <= end_ /\ end_ <= max_tasks.
Proof.
  unfold parse_task_range. split.
  - destruct (parse_bounds task_arg) as [[s e]|err]; cbn [bind];
      [|discriminate].
    destruct (Z_lt_le_dec s 1) as [L|L];
      [rewrite validate_range_raises by lia; discriminate|].
    destruct (Z_lt_le_dec e s) as [L'|L'];
      [rewrite validate_range_raises by lia; discriminate|].
    destruct (Z_lt_le_dec max_tasks e) as [L''|L''];
      [rewrite validate_range_raises by lia; discriminate|].
    rewrite validate_range_ok by lia. intros [= -> ->]. auto.
  - intros (-> & H1 & H2 & H3). cbn [bind]. now apply validate_range_ok.
Qed.

(** The two indexings of [parts] are within its bounds: nothing but a
    [ValueError] is raised. *)
Lemma parse_task_range_raises (task_arg : string) (max_tasks : Z) (e : error) :
  parse_task_range task_arg max_tasks = Raise e ->
  e = ValueError_range task_arg max_tasks
  \/ exists literal, e = ValueError_literal literal.
Proof.
  unfold parse_task_range, parse_bounds.
  destruct (PyStr.contains "-" task_arg) eqn:C.
  - destruct (split_with_separator _ _ C) as (p0 & p1 & more & ->).
    cbn [item nth_error bind]. unfold py_int.
    destruct (PyStr.int p0) as [start|]; cbn [bind];
      [|intros [= <-]; right; now eexists].
    destruct (PyStr.int p1) as [end_|]; cbn [bind];
      [|intros [= <-]; right; now eexists].
    unfold validate_range.
    destruct ((start <? 1) || (end_ >? max_tasks) || (start >? end_));
      [intros [= <-]; now left | discriminate].
  - unfold py_int. destruct (PyStr.int task_arg) as [start|]; cbn [bind];
      [|intros [= <-]; right; now eexists].
    unfold validate_range.
    destruct ((start <? 1) || (start >? max_tasks) || (start >? start));
      [intros [= <-]; now left | discriminate].
Qed.

(** C2: [parse_task_range] maps "3" to (3, 3) and "1-5" to (1, 5) when
    the tasks reach that far; and every argument whose start is below 1,
    whose end exceeds the number of tasks, or whose start exceeds its end
    raises the [ValueError] of the validation instead of returning a
    pair, so no pair outside these bounds is ever returned. *)
Theorem parse_task_range_validates :
  (forall max_tasks, 3 <= max_tasks ->
     parse_task_range "3" max_tasks = Ok (3, 3))
  /\ (forall max_tasks, 5 <= max_tasks ->
        parse_task_range "1-5" max_tasks = Ok (1, 5))
  /\ (forall task_arg max_tasks start end_,
        parse_bounds task_arg = Ok (start, end_) ->
        start < 1 \/ end_ > max_tasks \/ start > end_ ->
        parse_task_range task_arg max_tasks
        = Raise (ValueError_range task_arg max_tasks))
  /\ (forall task_arg max_tasks start end_,
        parse_task_range task_arg max_tasks = Ok (start, end_) ->
        1 <= start /\ start <= end_ /\ end_ <= max_tasks).
Proof.
  repeat split.
  - intros max_tasks H. apply parse_task_range_returns.
    split; [reflexivity | lia].
  - intros max_tasks H. apply parse_task_range_returns.
    split; [reflexivity | lia].
  - intros task_arg max_tasks start end_ E H. unfold parse_task_range.
    rewrite E. cbn [bind]. now apply validate_range_raises.
  - apply parse_task_range_returns in H. tauto.
  - apply parse_task_range_returns in H. tauto.
  - apply parse_task_range_returns in H. tauto.
Qed.

Lemma parse_task_range_validates_witness :
  parse_task_range "3" 3 = Ok (3, 3)
  /\ parse_task_range "1-5" 5 = Ok (1, 5)
  /\ parse_task_range "4-2" 5 = Raise (ValueError_range "4-2" 5)
  /\ parse_task_range "0" 5 = Raise (ValueError_range "0" 5)
  /\ parse_task_range "2-6" 5 = Raise (ValueError_range "2-6" 5)
  /\ (1 <= 2 /\ 2 <= 4 /\ 4 <= 5).
Proof.
  destruct parse_task_range_validates as (H3 & H15 & Hbad & Hgood).
  split; [apply H3; lia|].
  split; [apply H15; lia|].
  split; [apply (Hbad "4-2" 5 4 2); [reflexivity | lia]|].
  split; [apply (Hbad "0" 5 0 0); [reflexivity | lia]|].
  split; [apply (Hbad "2-6" 5 2 6); [reflexivity | lia]|].
  apply (Hgood "2-4" 5 2 4). reflexivity.
Defined.

Lemma all_chars_skip_spaces (p : ascii -> bool) (s : string) :
  (forall c, PyStr.is_space c = true -> p c = true) ->
  all_chars p (PyStr.skip_spaces s) = true -> all_chars p s = true.
Proof.
  intros Hp. induction s as [|c rest IH]; simpl; [reflexivity|].
  destruct (PyStr.is_space c) eqn:E.
  - intros H. rewrite (Hp _ E), (IH H). reflexivity.
  - simpl. tauto.
Qed.

Lemma skip_spaces_empty (s : string) :
  PyStr.skip_spaces s = EmptyString -> all_chars PyStr.is_space s = true.
Proof.
  induction s as [|c rest IH]; simpl; [reflexivity|].
  destruct (PyStr.is_space c); [exact IH | discriminate].
Qed.

Lemma all_chars_weaken (p q : ascii -> bool) (s : string) :
  (forall c, p c = true -> q c = true) ->
  all_chars p s = true -> all_chars q s = true.
Proof.
  intros Hpq. induction s as [|c rest IH]; simpl; [reflexivity|].
  intros [H1 H2]%andb_prop. rewrite (Hpq _ H1), (IH H2). reflexivity.
Qed.

Lemma all_chars_scan_digits (p : ascii -> bool) (s : string) :
  (forall c, is_digit c = true -> p c = true) ->
  p "_"%char = true ->
  forall prev acc digits value digits' last rest,
    PyStr.scan_digits prev acc digits s = Some (value, digits', last, rest) ->
    all_chars p rest = true -> all_chars p s = true.
Proof.
  intros Hd Hu. induction s as [|c s' IH]; simpl; intros prev acc digits.
  - intros ? ? ? ? [= _ _ _ <-] H. exact H.
  - intros value digits' last rest.
    destruct (PyStr.digit_value c) as [d|] eqn:D.
    + intros E H. rewrite (IH _ _ _ _ _ _ _ E H), Hd; [reflexivity|].
      unfold is_digit. now rewrite D.
    + destruct (Ascii.eqb c "_") eqn:U.
      * apply Ascii.eqb_eq in U. subst c.
        destruct prev; [discriminate|].
        intros E H. rewrite (IH _ _ _ _ _ _ _ E H), Hu. reflexivity.
      * intros [= _ _ _ <-] H. exact H.
Qed.

Lemma int_digits_chars (p : ascii -> bool) (s : string) (z : Z) :
  (forall c, is_digit c = true -> p c = true) ->
  (forall c, PyStr.is_space c = true -> p c = true) ->
  p "_"%char = true ->
  PyStr.int_digits s = Some z -> all_chars p s = true.
Proof.
  intros Hd Hs Hu. unfold PyStr.int_digits.
  destruct (PyStr.starts_with_underscore s); [discriminate|].
  destruct (PyStr.scan_digits false 0 0%N s)
    as [[[[value digits] last] rest]|] eqn:E; [|discriminate].
  destruct last; [discriminate|].
  destruct (digits =? 0)%N; [discriminate|].
  destruct (PyStr.skip_spaces rest) eqn:R; [|discriminate].
  intros _. eapply all_chars_scan_digits; [exact Hd | exact Hu | exact E |].
  apply (all_chars_weaken PyStr.is_space); [exact Hs|].
  now apply skip_spaces_empty.
Qed.

(** [int] accepts no string with a character that is not a digit, white
    space, a sign or an underscore, and it does not accept the empty
    string. *)
Lemma int_accepts_int_chars {s : string} {z : Z} :
  PyStr.int s = Some z -> all_chars int_char s = true /\ s <> EmptyString.
Proof.
  intros H. split; [|intros ->; discriminate].
  assert (Hspace : forall c, PyStr.is_space c = true -> int_char c = true).
  { intros c E. unfold int_char. rewrite E. now rewrite orb_true_r. }
  assert (Hdigit : forall c, is_digit c = true -> int_char c = true).
  { intros c E. unfold int_char. now rewrite E. }
  apply all_chars_skip_spaces; [exact Hspace|].
  unfold PyStr.int in H.
  destruct (PyStr.skip_spaces s) as [|c rest]; [reflexivity|].
  destruct (Ascii.eqb c "+") eqn:Plus.
  - simpl. unfold int_char at 1. rewrite Plus, !orb_true_r. simpl.
    now apply (int_digits_chars int_char rest z).
  - destruct (Ascii.eqb c "-") eqn:Minus.
    + simpl. unfold int_char at 1. rewrite Minus, !orb_true_r. simpl.
      destruct (PyStr.int_digits rest) as [v|] eqn:D; [|discriminate].
      now apply (int_digits_chars int_char rest v).
    + now apply (int_digits_chars int_char (String c rest) z).
Qed.

(** C8: of an argument with two or more '-' only the first two segments
    are used ("1-2-3" is read as (1, 2) when that is in bounds), and when
    the first or the second segment is not an [int] literal (as the empty
    first segment of an argument that starts with '-') the [ValueError]
    of [int] is raised, not the one of the validation; [int] takes no
    segment that is empty or has a character other than digits, white
    space, a sign and the underscore. *)
Theorem parse_task_range_segments :
  (forall task_arg p0 p1 more max_tasks,
     PyStr.split "-" task_arg = p0 :: p1 :: more ->
     parse_task_range task_arg max_tasks
     = (start <- py_int p0 ;;
        end_ <- py_int p1 ;;
        validate_range task_arg max_tasks (start, end_)))
  /\ (forall max_tasks, 2 <= max_tasks ->
        parse_task_range "1-2-3" max_tasks = Ok (1, 2))
  /\ (forall task_arg p0 rest max_tasks,
        PyStr.split "-" task_arg = p0 :: rest ->
        PyStr.int p0 = None ->
        parse_task_range task_arg max_tasks = Raise (ValueError_literal p0))
  /\ (forall task_arg p0 p1 more max_tasks start,
        PyStr.split "-" task_arg = p0 :: p1 :: more ->
        PyStr.int p0 = Some start ->
        PyStr.int p1 = None ->
        parse_task_range task_arg max_tasks = Raise (ValueError_literal p1))
  /\ (forall rest max_tasks,
        parse_task_range (String "-" rest) max_tasks
        = Raise (ValueError_literal ""))
  /\ (forall segment,
        segment = "" \/ all_chars int_char segment = false ->
        PyStr.int segment = None).
Proof.
  split; [|split; [|split; [|split; [|split]]]].
  - intros task_arg p0 p1 more max_tasks E. unfold parse_task_range.
    rewrite (parse_bounds_segments E). unfold py_int.
    destruct (PyStr.int p0); [|reflexivity].
    destruct (PyStr.int p1); reflexivity.
  - intros max_tasks H. apply parse_task_range_returns.
    split; [reflexivity | lia].
  - intros task_arg p0 rest max_tasks E H. unfold parse_task_range.
    rewrite (parse_bounds_first_segment E H). reflexivity.
  - intros task_arg p0 p1 more max_tasks start E H0 H1.
    unfold parse_task_range. rewrite (parse_bounds_segments E).
    unfold py_int. rewrite H0, H1. reflexivity.
  - intros rest max_tasks. unfold parse_task_range.
    rewrite (parse_bounds_first_segment (task_arg := String "-" rest)
               (p0 := "") (rest := PyStr.split "-" rest));
      reflexivity.
  - intros segment H. destruct (PyStr.int segment) as [z|] eqn:E;
      [|reflexivity].
    destruct (int_accepts_int_chars E) as [Hc Hn].
    destruct H as [->|H]; [now contradiction Hn | congruence].
Qed.

Lemma parse_task_range_segments_witness :
  parse_task_range "1-2-3" 2 = Ok (1, 2)
  /\ parse_task_range "x-2" 5 = Raise (ValueError_literal "x")
  /\ parse_task_range "1-two-3" 5 = Raise (ValueError_literal "two")
  /\ parse_task_range "-3" 5 = Raise (ValueError_literal "")
  /\ PyStr.int "1.5" = None.
Proof.
  destruct parse_task_range_segments as (Huse & H123 & Hp0 & Hp1 & Hdash & Hch).
  split; [apply H123; lia|].
  split; [apply (Hp0 "x-2" "x" ["2"] 5); reflexivity|].
  split; [apply (Hp1 "1-two-3" "1" "two" ["3"] 5 1); reflexivity|].
  split; [apply Hdash|].
  apply Hch. right. reflexivity.
Defined.

(** ** The loop over the tasks *)

Lemma pick_app {A B} (f : A -> option B) (l1 l2 : list A) :
  pick f (l1 ++ l2) = pick f l1 ++ pick f l2.
Proof.
  induction l1 as [|a l1 IH]; simpl; [reflexivity|].
  destruct (f a); simpl; now rewrite IH.
Qed.

Section RunnerFacts.

Context {World : Type}.
Variable core : ERC3 World.
Variable args : Args.
Variable model_id : string.

Abbreviation loop_body := (loop_body core args model_id).
Abbreviation run_tasks := (run_tasks core args model_id).
Abbreviation results := (results core args model_id).
Abbreviation scores := (scores core args model_id).
Abbreviation body_events := (body_events args model_id).

Lemma loop_body_eq (w : World) (task_num : Z) (task : TaskInfo) :
  let ra :=
    run_agent core (start_task core w task) model_id task
              (args_provider args) in
  let ct := complete_task core (fst ra) task in
  loop_body w task_num task
  = (fst ct, body_events task_num task (snd ra) (snd ct), score_of (snd ct)).
Proof.
  unfold loop_body. cbv zeta.
  destruct (run_agent core (start_task core w task) model_id task
                      (args_provider args)) as [w2 raised].
  cbn [fst snd]. destruct (complete_task core w2 task) as [w3 r].
  reflexivity.
Qed.

Lemma body_started n t raised r : started (body_events n t raised r) = [t].
Proof. destruct raised, r as [[ev|]]; reflexivity. Qed.

Lemma body_agent_runs n t raised r :
  agent_runs (body_events n t raised r) = [t].
Proof. destruct raised, r as [[ev|]]; reflexivity. Qed.

Lemma body_completed n t raised r :
  completed (body_events n t raised r) = [t].
Proof. destruct raised, r as [[ev|]]; reflexivity. Qed.

(** One step of the loop. *)
Lemma run_tasks_step (w : World) (task_num : Z) (task : TaskInfo)
      (rest : list (Z * TaskInfo)) (count : Z) :
  let ra :=
    run_agent core (start_task core w task) model_id task
              (args_provider args) in
  let ct := complete_task core (fst ra) task in
  let evs := body_events task_num task (snd ra) (snd ct) in
  run_tasks w ((task_num, task) :: rest) count
  = if args_stop_on_fail args && Qeq_bool (score_of (snd ct)) 0 then
      {| end_world := fst ct;
         end_events := evs ++ [EvPrint (PrStopping task_num)];
         completed_count := count + 1;
         stopped_early := true |}
    else
      let tail := run_tasks (fst ct) rest (count + 1) in
      {| end_world := end_world tail;
         end_events := evs ++ end_events tail;
         completed_count := completed_count tail;
         stopped_early := stopped_early tail |}.
Proof.
  cbv zeta. cbn [run_tasks]. rewrite loop_body_eq. reflexivity.
Qed.

Lemma results_step (w : World) (task_num : Z) (task : TaskInfo)
      (rest : list (Z * TaskInfo)) :
  let ra :=
    run_agent core (start_task core w task) model_id task
              (args_provider args) in
  let ct := complete_task core (fst ra) task in
  results w ((task_num, task) :: rest) = snd ct :: results (fst ct) rest.
Proof.
  cbv zeta. cbn [results].
  destruct (complete_task core _ task) as [w3 r]. reflexivity.
Qed.

(** What has run when the loop is left: with the flag, the tasks up to
    the first score 0; without it, all of them. *)
Lemma run_tasks_prefix (to_run : list (Z * TaskInfo)) :
  forall (w : World) (count : Z),
    let e := run_tasks w to_run count in
    let ran :=
      if args_stop_on_fail args then
        match first_zero (scores w to_run) with
        | Some k => firstn (S k) to_run
        | None => to_run
        end
      else to_run in
    started (end_events e) = map snd ran
    /\ agent_runs (end_events e) = map snd ran
    /\ completed (end_events e) = map snd ran
    /\ completed_count e = count + Z.of_nat (length ran)
    /\ stopped_early e
       = if args_stop_on_fail args then
           match first_zero (scores w to_run) with
           | Some _ => true
           | None => false
           end
         else false.
Proof.
  induction to_run as [|[task_num task] rest IH]; intros w count.
  - cbn. destruct (args_stop_on_fail args); cbn; repeat split; lia.
  - cbv zeta. rewrite run_tasks_step. unfold scores.
    rewrite results_step. cbv zeta. cbn [map first_zero].
    set (ra := run_agent core (start_task core w task) model_id task
                         (args_provider args)).
    set (ct := complete_task core (fst ra) task).
    specialize (IH (fst ct) (count + 1)). cbv zeta in IH.
    fold (scores (fst ct) rest).
    destruct (args_stop_on_fail args); cbn [andb].
    + destruct (Qeq_bool (score_of (snd ct)) 0).
      * cbn [end_events completed_count stopped_early firstn map length].
        unfold started, agent_runs, completed. rewrite !pick_app.
        fold (started (body_events task_num task (snd ra) (snd ct))).
        fold (agent_runs (body_events task_num task (snd ra) (snd ct))).
        fold (completed (body_events task_num task (snd ra) (snd ct))).
        rewrite body_started, body_agent_runs, body_completed.
        cbn. repeat split; lia.
      * cbn [end_events completed_count stopped_early].
        unfold started, agent_runs, completed in *. rewrite !pick_app.
        fold (started (body_events task_num task (snd ra) (snd ct))).
        fold (agent_runs (body_events task_num task (snd ra) (snd ct))).
        fold (completed (body_events task_num task (snd ra) (snd ct))).
        rewrite body_started, body_agent_runs, body_completed.
        destruct IH as (I1 & I2 & I3 & I4 & I5).
        rewrite I1, I2, I3, I4, I5.
        destruct (first_zero (scores (fst ct) rest)) as [k|];
          cbn [option_map firstn map length app];
          repeat split; lia.
    + cbn [end_events completed_count stopped_early].
      unfold started, agent_runs, completed in *. rewrite !pick_app.
      fold (started (body_events task_num task (snd ra) (snd ct))).
      fold (agent_runs (body_events task_num task (snd ra) (snd ct))).
      fold (completed (body_events task_num task (snd ra) (snd ct))).
      rewrite body_started, body_agent_runs, body_completed.
      destruct IH as (I1 & I2 & I3 & I4 & I5).
      rewrite I1, I2, I3, I4, I5.
      cbn [map length app]. repeat split; lia.
Qed.

Lemma first_zero_before (l : list Q) :
  forall k s,
    nth_error l k = Some s -> Qeq_bool s 0 = true ->
    exists j, first_zero l = Some j /\ (j <= k)%nat.
Proof.
  induction l as [|x l IH]; intros [|k] s; simpl; try discriminate.
  - intros [= ->] ->. exists O. split; [reflexivity | lia].
  - intros E Z0. destruct (Qeq_bool x 0).
    + exists O. split; [reflexivity | lia].
    + destruct (IH _ _ E Z0) as (j & -> & L). exists (S j).
      split; [reflexivity | lia].
Qed.

Lemma first_zero_at (l : list Q) :
  forall k s,
    nth_error l k = Some s -> Qeq_bool s 0 = true ->
    (forall i x, (i < k)%nat -> nth_error l i = Some x ->
                 Qeq_bool x 0 = false) ->
    first_zero l = Some k.
Proof.
  induction l as [|x l IH]; intros [|k] s; simpl; try discriminate.
  - intros [= ->] -> _. reflexivity.
  - intros E Z0 H. rewrite (H O x) by (reflexivity || lia).
    rewrite (IH k s E Z0); [reflexivity|].
    intros i y L N. apply (H (S i) y); [lia | exact N].
Qed.

Lemma first_zero_none (l : list Q) :
  (forall x, In x l -> Qeq_bool x 0 = false) -> first_zero l = None.
Proof.
  induction l as [|x l IH]; cbn; [reflexivity|]. intros H.
  rewrite (H x) by auto. rewrite IH by auto. reflexivity.
Qed.

(** The score that the loop tests is 0 exactly for a result whose
    evaluation has the score 0 or is missing. *)
Lemma zero_scored_score (r : TaskResult) :
  Qeq_bool (score_of r) 0 = zero_scored r.
Proof. unfold score_of, zero_scored. now destruct (result_eval r). Qed.

Lemma first_zero_scored (rs : list TaskResult) :
  first_zero (map score_of rs) = first_where zero_scored rs.
Proof.
  induction rs as [|r rs IH]; cbn; [reflexivity|].
  now rewrite zero_scored_score, IH.
Qed.

(** C5: with the stop-on-fail flag the loop is left exactly at the first
    task whose score is 0: that task and every task before it is started,
    handed to the agent and completed, and no later task is started. The
    score is the one of the evaluation that [complete_task] returns: a
    task evaluated with score 0, after tasks evaluated with other scores,
    is the last one that runs, and when every task is evaluated with a
    score other than 0 the whole list runs. Without the flag every task
    runs, whatever the scores. *)
Theorem stop_on_fail_stops_at_first_zero :
  forall (w : World) (to_run : list (Z * TaskInfo)) (count : Z),
    let e := run_tasks w to_run count in
    let rs := results w to_run in
    (args_stop_on_fail args = true ->
     match first_where zero_scored rs with
     | Some k =>
         started (end_events e) = map snd (firstn (S k) to_run)
         /\ agent_runs (end_events e) = map snd (firstn (S k) to_run)
         /\ completed (end_events e) = map snd (firstn (S k) to_run)
         /\ stopped_early e = true
     | None =>
         started (end_events e) = map snd to_run
         /\ agent_runs (end_events e) = map snd to_run
         /\ completed (end_events e) = map snd to_run
         /\ stopped_early e = false
     end)
    /\ (args_stop_on_fail args = true ->
        forall k r ev,
          nth_error rs k = Some r ->
          result_eval r = Some ev ->
          Qeq_bool (eval_score ev) 0 = true ->
          (forall i r',
             (i < k)%nat -> nth_error rs i = Some r' ->
             exists ev',
               result_eval r' = Some ev'
               /\ Qeq_bool (eval_score ev') 0 = false) ->
          started (end_events e) = map snd (firstn (S k) to_run)
          /\ agent_runs (end_events e) = map snd (firstn (S k) to_run)
          /\ completed (end_events e) = map snd (firstn (S k) to_run)
          /\ stopped_early e = true)
    /\ (args_stop_on_fail args = true ->
        (forall r,
           In r rs ->
           exists ev,
             result_eval r = Some ev /\ Qeq_bool (eval_score ev) 0 = false) ->
        started (end_events e) = map snd to_run
        /\ agent_runs (end_events e) = map snd to_run
        /\ completed (end_events e) = map snd to_run
        /\ stopped_early e = false)
    /\ (args_stop_on_fail args = false ->
        started (end_events e) = map snd to_run
        /\ agent_runs (end_events e) = map snd to_run
        /\ completed (end_events e) = map snd to_run
        /\ stopped_early e = false).
Proof.
  intros w to_run count e rs.
  destruct (run_tasks_prefix to_run w count) as (H1 & H2 & H3 & _ & H5).
  fold e in H1, H2, H3, H5. unfold scores in H1, H2, H3, H5.
  fold rs in H1, H2, H3, H5.
  split; [|split; [|split]]; intros F; rewrite F in *.
  - rewrite <- first_zero_scored. destruct (first_zero (map score_of rs)); auto.
  - intros k r ev N E Z0 Before.
    assert (Fz : first_zero (map score_of rs) = Some k).
    { apply (first_zero_at _ k (score_of r)).
      - now rewrite nth_error_map, N.
      - rewrite zero_scored_score. unfold zero_scored. now rewrite E.
      - intros i x L Nx. rewrite nth_error_map in Nx.
        destruct (nth_error rs i) as [r'|] eqn:Ni; [|discriminate].
        injection Nx as <-. destruct (Before i r' L Ni) as (ev' & E' & Z').
        rewrite zero_scored_score. unfold zero_scored. now rewrite E'. }
    rewrite Fz in *. auto.
  - intros All.
    assert (Fz : first_zero (map score_of rs) = None).
    { apply first_zero_none. intros x [r [<- I]]%in_map_iff.
      destruct (All r I) as (ev & E & Z').
      rewrite zero_scored_score. unfold zero_scored. now rewrite E. }
    rewrite Fz in *. auto.
  - auto.
Qed.

(** C9: a result without an evaluation has score 0; so with the
    stop-on-fail flag the loop does not go past a task whose evaluation
    is missing, and is left at that very task when no earlier score is
    0. *)
Theorem missing_evaluation_counts_as_zero :
  (forall r, result_eval r = None -> score_of r = 0%Q)
  /\ (forall (w : World) (to_run : list (Z * TaskInfo)) (count : Z) k r,
        args_stop_on_fail args = true ->
        nth_error (results w to_run) k = Some r ->
        result_eval r = None ->
        let e := run_tasks w to_run count in
        stopped_early e = true
        /\ (exists j, (j <= k)%nat
                      /\ started (end_events e)
                         = map snd (firstn (S j) to_run))
        /\ ((forall i x, (i < k)%nat ->
                         nth_error (scores w to_run) i = Some x ->
                         Qeq_bool x 0 = false) ->
            started (end_events e) = map snd (firstn (S k) to_run)
            /\ completed (end_events e) = map snd (firstn (S k) to_run))).
Proof.
  assert (Hzero : forall r, result_eval r = None -> score_of r = 0%Q).
  { intros r E. unfold score_of. now rewrite E. }
  split; [exact Hzero|].
  intros w to_run count k r F N E e.
  assert (Ns : nth_error (scores w to_run) k = Some (score_of r)).
  { unfold scores. rewrite nth_error_map, N. reflexivity. }
  assert (Z0 : Qeq_bool (score_of r) 0 = true) by now rewrite (Hzero r E).
  destruct (run_tasks_prefix to_run w count) as (H1 & _ & H3 & _ & H5).
  fold e in H1, H3, H5. rewrite F in *.
  destruct (first_zero_before _ _ _ Ns Z0) as (j & Fj & L).
  rewrite Fj in *. split; [exact H5|]. split; [now exists j|].
  intros Hnz. rewrite (first_zero_at _ _ _ Ns Z0 Hnz) in Fj.
  injection Fj as <-. auto.
Qed.

(** *** One task at a time *)

(** Within one iteration the only call of [start_task] comes right after
    the three lines that announce the task. *)
Lemma body_start_position n t raised r :
  forall p t',
    nth_error (body_events n t raised r) p = Some (EvStartTask t') ->
    t' = t /\ p = 3%nat.
Proof.
  intros p t'. destruct raised, r as [[ev|]];
    do 10 (destruct p as [|p];
           [cbn; intros [= E]; try (now split; [symmetry | reflexivity])|]);
    cbn; try discriminate; destruct p; discriminate.
Qed.

(** At every point of an iteration the task is not yet started, in
    progress, or completed. *)
Lemma body_prefix_state n t raised r :
  forall p,
    let pre := firstn p (body_events n t raised r) in
    (started pre = [] /\ completed pre = [])
    \/ (started pre = [t] /\ completed pre = [])
    \/ (started pre = [t] /\ completed pre = [t]).
Proof.
  intros p. destruct raised, r as [[ev|]];
    do 10 (destruct p as [|p]; [cbn; tauto|]); cbn; tauto.
Qed.

Lemma firstn_past {A} (l1 l2 : list A) (p : nat) :
  (length l1 <= p)%nat ->
  firstn p (l1 ++ l2) = l1 ++ firstn (p - length l1) l2.
Proof.
  intros L. rewrite firstn_app, (firstn_all2 l1) by exact L. reflexivity.
Qed.

Lemma firstn_within {A} (l1 l2 : list A) (p : nat) :
  (p <= length l1)%nat -> firstn p (l1 ++ l2) = firstn p l1.
Proof.
  intros L. rewrite firstn_app. replace (p - length l1)%nat with O by lia.
  cbn. apply app_nil_r.
Qed.

(** When a task is started, the tasks before it in the run list, and
    only they, have been started, and each of them has been completed. *)
Lemma start_after_completion (to_run : list (Z * TaskInfo)) :
  forall (w : World) (count : Z) (p : nat) (t : TaskInfo),
    let evs := end_events (run_tasks w to_run count) in
    nth_error evs p = Some (EvStartTask t) ->
    exists j num,
      nth_error to_run j = Some (num, t)
      /\ started (firstn p evs) = map snd (firstn j to_run)
      /\ agent_runs (firstn p evs) = map snd (firstn j to_run)
      /\ completed (firstn p evs) = map snd (firstn j to_run).
Proof.
  induction to_run as [|[task_num task] rest IH]; intros w count p t; cbv zeta.
  - cbn. destruct p; discriminate.
  - rewrite run_tasks_step. cbv zeta.
    set (ra := run_agent core (start_task core w task) model_id task
                         (args_provider args)).
    set (ct := complete_task core (fst ra) task).
    set (body := body_events task_num task (snd ra) (snd ct)).
    assert (Hhead : forall tl,
               (p < length body)%nat ->
               nth_error (body ++ tl) p = Some (EvStartTask t) ->
               exists j num,
                 nth_error ((task_num, task) :: rest) j = Some (num, t)
                 /\ started (firstn p (body ++ tl))
                    = map snd (firstn j ((task_num, task) :: rest))
                 /\ agent_runs (firstn p (body ++ tl))
                    = map snd (firstn j ((task_num, task) :: rest))
                 /\ completed (firstn p (body ++ tl))
                    = map snd (firstn j ((task_num, task) :: rest))).
    { intros tl L N. rewrite nth_error_app1 in N by exact L.
      destruct (body_start_position _ _ _ _ _ _ N) as [-> ->].
      exists O, task_num. split; [reflexivity|].
      rewrite firstn_within by lia.
      unfold body, body_events. cbn. repeat split; reflexivity. }
    destruct (args_stop_on_fail args && Qeq_bool (score_of (snd ct)) 0);
      cbn [end_events]; intros N.
    + destruct (Nat.lt_ge_cases p (length body)) as [L|L];
        [now apply Hhead|].
      rewrite nth_error_app2 in N by exact L.
      destruct (p - length body)%nat as [|[|q]]; discriminate.
    + destruct (Nat.lt_ge_cases p (length body)) as [L|L];
        [now apply Hhead|].
      rewrite nth_error_app2 in N by exact L.
      destruct (IH _ _ _ _ N) as (j & num & Hj & Hs & Ha & Hc).
      exists (S j), num. split; [exact Hj|].
      rewrite firstn_past by exact L.
      unfold started, agent_runs, completed in *.
      rewrite !pick_app, Hs, Ha, Hc.
      fold (started body). fold (agent_runs body). fold (completed body).
      unfold body.
      rewrite body_started, body_agent_runs, body_completed.
      repeat split; reflexivity.
Qed.

(** At every point of the run the completed tasks are the first tasks of
    the run list, and at most the next one is in progress. *)
Lemma at_most_one_in_progress (to_run : list (Z * TaskInfo)) :
  forall (w : World) (count : Z) (p : nat),
    let pre := firstn p (end_events (run_tasks w to_run count)) in
    exists j,
      completed pre = map snd (firstn j to_run)
      /\ (started pre = completed pre
          \/ exists num t,
               nth_error to_run j = Some (num, t)
               /\ started pre = completed pre ++ [t]).
Proof.
  induction to_run as [|[task_num task] rest IH]; intros w count p; cbv zeta.
  - cbn. rewrite firstn_nil. exists O. split; [reflexivity | now left].
  - rewrite run_tasks_step. cbv zeta.
    set (ra := run_agent core (start_task core w task) model_id task
                         (args_provider args)).
    set (ct := complete_task core (fst ra) task).
    set (body := body_events task_num task (snd ra) (snd ct)).
    assert (Hhead : forall tl,
               (p <= length body)%nat ->
               exists j,
                 completed (firstn p (body ++ tl))
                 = map snd (firstn j ((task_num, task) :: rest))
                 /\ (started (firstn p (body ++ tl))
                     = completed (firstn p (body ++ tl))
                     \/ exists num t,
                          nth_error ((task_num, task) :: rest) j
                          = Some (num, t)
                          /\ started (firstn p (body ++ tl))
                             = completed (firstn p (body ++ tl)) ++ [t])).
    { intros tl L. rewrite firstn_within by exact L.
      destruct (body_prefix_state task_num task (snd ra) (snd ct) p)
        as [[Hs Hc]|[[Hs Hc]|[Hs Hc]]]; fold body in Hs, Hc;
        rewrite Hs, Hc.
      - exists O. split; [reflexivity | now left].
      - exists O. split; [reflexivity|]. right.
        exists task_num, task. split; reflexivity.
      - exists 1%nat. split; [reflexivity | now left]. }
    destruct (args_stop_on_fail args && Qeq_bool (score_of (snd ct)) 0);
      cbn [end_events];
      (destruct (Nat.le_gt_cases p (length body)) as [L|L];
       [now apply Hhead|]);
      rewrite firstn_past by lia;
      unfold started, completed in *; rewrite !pick_app;
      fold (started body); fold (completed body); unfold body;
      rewrite body_started, body_completed.
    + exists 1%nat.
      destruct (p - length (body_events task_num task (snd ra) (snd ct)))%nat
        as [|q]; cbn; [|rewrite firstn_nil; cbn];
        (split; [reflexivity | now left]).
    + destruct (IH (fst ct) (count + 1)
                   (p - length (body_events task_num task (snd ra) (snd ct)))%nat)
        as (j & Hc & Hs).
      exists (S j). rewrite Hc. split; [reflexivity|].
      destruct Hs as [Hs|(num & t & Hn & Hs)]; rewrite Hs, Hc.
      * now left.
      * right. exists num, t. split; [exact Hn | reflexivity].
Qed.

(** C7: the tasks run strictly one after the other. Whenever a task is
    started, every task before it in the run list has been started, has
    had its agent run (to its return or to a caught exception) and has
    been marked complete, and no other task has; and at no point of the
    run is more than one task started and not yet completed. *)
Theorem tasks_run_one_at_a_time :
  forall (w : World) (to_run : list (Z * TaskInfo)) (count : Z),
    let evs := end_events (run_tasks w to_run count) in
    (forall p t,
       nth_error evs p = Some (EvStartTask t) ->
       exists j num,
         nth_error to_run j = Some (num, t)
         /\ started (firstn p evs) = map snd (firstn j to_run)
         /\ agent_runs (firstn p evs) = map snd (firstn j to_run)
         /\ completed (firstn p evs) = map snd (firstn j to_run))
    /\ (forall p, 0 <= in_progress (firstn p evs) <= 1).
Proof.
  intros w to_run count evs. split.
  - intros p t. apply start_after_completion.
  - intros p. unfold in_progress.
    destruct (at_most_one_in_progress to_run w count p) as (j & _ & Hs).
    fold evs in Hs. destruct Hs as [->|(num & t & _ & ->)].
    + lia.
    + rewrite length_app. cbn. lia.
Qed.

(** *** An exception in the agent *)

Lemma started_first (w : World) (task_num : Z) (task : TaskInfo)
      (rest : list (Z * TaskInfo)) (count : Z) :
  hd_error (started (end_events (run_tasks w ((task_num, task) :: rest) count)))
  = Some task.
Proof.
  rewrite run_tasks_step. cbv zeta.
  destruct (args_stop_on_fail args && Qeq_bool _ 0); cbn [end_events];
    unfold started; rewrite pick_app; fold (started (body_events
      task_num task
      (snd (run_agent core (start_task core w task) model_id task
                      (args_provider args)))
      (snd (complete_task core
              (fst (run_agent core (start_task core w task) model_id task
                              (args_provider args))) task))));
    rewrite body_started; reflexivity.
Qed.

(** C4, as the code has it: an exception that [run_agent] raises is
    caught, its text and its traceback are printed, and [complete_task]
    is still called for the task, whose score is 0 when the result has no
    evaluation. The loop then goes on as after an agent run that
    returned: it is left if the stop-on-fail flag is set and the score is
    0, and otherwise the next task is started. *)
Theorem agent_exception_is_contained :
  forall (w : World) (task_num : Z) (task : TaskInfo)
         (rest : list (Z * TaskInfo)) (count : Z) (w2 : World)
         (e : exception),
    run_agent core (start_task core w task) model_id task (args_provider args)
    = (w2, Some e) ->
    let ct := complete_task core w2 task in
    let out := run_tasks w ((task_num, task) :: rest) count in
    let leaves := args_stop_on_fail args && Qeq_bool (score_of (snd ct)) 0 in
    end_events out
    = announce_task task_num task
      ++ [EvRunAgent model_id task (args_provider args);
          EvPrint (PrError (str e)); EvTraceback e; EvCompleteTask task]
      ++ report_score (snd ct)
      ++ (if leaves then [EvPrint (PrStopping task_num)]
          else end_events (run_tasks (fst ct) rest (count + 1)))
    /\ (result_eval (snd ct) = None -> score_of (snd ct) = 0%Q)
    /\ (leaves = false ->
        forall num next rest',
          rest = (num, next) :: rest' ->
          nth_error (started (end_events out)) 1 = Some next).
Proof.
  intros w task_num task rest count w2 e R ct out leaves.
  assert (E : end_events out
              = body_events task_num task (Some e) (snd ct)
                ++ (if leaves then [EvPrint (PrStopping task_num)]
                    else end_events (run_tasks (fst ct) rest (count + 1)))).
  { unfold out. rewrite run_tasks_step. cbv zeta. rewrite R. cbn [fst snd].
    fold ct. fold leaves. destruct leaves; reflexivity. }
  split; [|split].
  - rewrite E. unfold body_events. cbn [on_exception].
    rewrite <- !app_assoc. reflexivity.
  - intros N. unfold score_of. now rewrite N.
  - intros L num next rest' ->. rewrite E, L.
    unfold started. rewrite pick_app.
    fold (started (body_events task_num task (Some e) (snd ct))).
    rewrite body_started. cbn [app nth_error].
    apply (started_first (fst ct) num next rest' (count + 1)).
Qed.

End RunnerFacts.

(** ** The session *)

Lemma submitted_app (l1 l2 : list event) :
  submitted (l1 ++ l2) = submitted l1 || submitted l2.
Proof. apply existsb_app. Qed.

Lemma stopped_app (l1 l2 : list event) :
  stopped (l1 ++ l2) = stopped l1 || stopped l2.
Proof. apply existsb_app. Qed.

Lemma body_not_submitted args model_id n t raised r :
  submitted (body_events args model_id n t raised r) = false
  /\ stopped (body_events args model_id n t raised r) = false.
Proof. destruct raised, r as [[ev|]]; split; reflexivity. Qed.

(** The loop never submits, and it prints that it stops exactly when it
    is left by the [break]. *)
Lemma loop_flags {World} (core : ERC3 World) (args : Args) (model_id : string)
      (to_run : list (Z * TaskInfo)) :
  forall (w : World) (count : Z),
    let e := run_tasks core args model_id w to_run count in
    submitted (end_events e) = false
    /\ stopped (end_events e) = stopped_early e.
Proof.
  induction to_run as [|[task_num task] rest IH]; intros w count; cbv zeta.
  - split; reflexivity.
  - rewrite run_tasks_step. cbv zeta.
    destruct (args_stop_on_fail args && Qeq_bool _ 0);
      cbn [end_events stopped_early];
      rewrite submitted_app, stopped_app;
      match goal with
      | |- context [body_events ?a ?m ?n ?t ?x ?r] =>
          destruct (body_not_submitted a m n t x r) as [-> ->]
      end.
    + split; reflexivity.
    + apply IH.
Qed.

(** A loop that is not left early has run its whole list. *)
Lemma loop_not_stopped {World} (core : ERC3 World) (args : Args)
      (model_id : string) (to_run : list (Z * TaskInfo)) (w : World)
      (count : Z) :
  let e := run_tasks core args model_id w to_run count in
  stopped_early e = false ->
  started (end_events e) = map snd to_run
  /\ agent_runs (end_events e) = map snd to_run
  /\ completed (end_events e) = map snd to_run
  /\ completed_count e = count + Z.of_nat (length to_run).
Proof.
  intros e S.
  destruct (run_tasks_prefix core args model_id to_run w count)
    as (H1 & H2 & H3 & H4 & H5).
  fold e in H1, H2, H3, H4, H5. rewrite S in H5.
  destruct (args_stop_on_fail args); [|auto].
  destruct (first_zero _); [discriminate | auto].
Qed.

Lemma enumerate_tasks {A} (l : list A) :
  forall first,
    map snd (map (fun it => (fst it + 1, snd it)) (enumerate first l)) = l.
Proof.
  induction l as [|a l IH]; intros first; cbn; [reflexivity|].
  now rewrite IH.
Qed.

Lemma listing_is_quiet (l : list (Z * TaskInfo)) :
  let evs := map (fun it => EvPrint (PrListEntry (fst it) (snd it))) l in
  submitted evs = false /\ stopped evs = false /\ started evs = []
  /\ agent_runs evs = [] /\ completed evs = [].
Proof.
  induction l as [|a l IH]; cbn; [repeat split; reflexivity | exact IH].
Qed.

Lemma getitem_in_bounds {A} (l : list A) (k : Z) :
  0 <= k < Z.of_nat (length l) -> exists a, getitem l k = Ok a.
Proof.
  intros B. unfold getitem, item.
  replace ((0 <=? k) && (k <? Z.of_nat (length l))) with true by lia.
  destruct (nth_error l (Z.to_nat k)) as [a|] eqn:N; [now exists a|].
  apply nth_error_None in N. lia.
Qed.

Lemma select_tasks_in_bounds (tasks : list TaskInfo) (count : nat) :
  forall start,
    1 <= start ->
    start + Z.of_nat count - 1 <= Z.of_nat (length tasks) ->
    exists selected,
      select_tasks tasks (range_from start count) = Ok selected
      /\ map fst selected = range_from start count.
Proof.
  induction count as [|count IH]; intros start L U; cbn [range_from select_tasks].
  - now exists [].
  - destruct (getitem_in_bounds tasks (start - 1)) as [task ->]; [lia|].
    destruct (IH (start + 1)) as (selected & -> & M); [lia | lia |].
    cbn [bind]. eexists. split; [reflexivity|]. cbn [map fst]. now rewrite M.
Qed.

(** A selection that passed the validation indexes the task list within
    its bounds: the only error that [tasks_to_run] raises is the
    [ValueError] of [parse_task_range]. *)
Lemma tasks_to_run_raises (args : Args) (tasks : list TaskInfo) (e : error) :
  tasks_to_run args tasks = Raise e ->
  exists task_arg,
    args_task args = Some task_arg
    /\ parse_task_range task_arg (Z.of_nat (length tasks)) = Raise e.
Proof.
  unfold tasks_to_run. destruct (args_task args) as [[|c s]|];
    try discriminate.
  destruct (parse_task_range (String c s) (Z.of_nat (length tasks)))
    as [[start end_]|err] eqn:P; cbn [bind fst snd].
  - apply parse_task_range_returns in P as (_ & L & M & U).
    destruct (select_tasks_in_bounds tasks (Z.to_nat (end_ + 1 - start)) start)
      as (selected & S & _); [lia | lia |].
    unfold range. rewrite S. discriminate.
  - intros [= <-]. now exists (String c s).
Qed.

(** The events of [main] after the session is opened. *)
Lemma run_events_shape {World} (core : ERC3 World) (w : World) (args : Args) :
  exists (opening : list event) (w2 : World) (session_id : string),
    let tasks := session_tasks core w args in
    let model_id := choose_model args in
    opening
    = [EvStartSession "store" "my"
         ("LangChain Agent (" ++ model_id ++ ")")%string
         ("LangChain create_agent with "
          ++ provider_name (args_provider args))%string
         ["compete_accuracy"];
       EvPrint (PrProviderModel (args_provider args) model_id);
       EvSessionStatus session_id;
       EvPrint (PrSessionHasTasks (length tasks))]
    /\ run_events core w args
       = opening
         ++ (if args_list args then
               EvPrint PrAvailableTasks
               :: map (fun it => EvPrint (PrListEntry (fst it) (snd it)))
                      (enumerate 1 tasks)
             else
               match tasks_to_run args tasks with
               | Raise _ => []
               | Ok (announce, to_run) =>
                   let e := run_tasks core args model_id w2 to_run 0 in
                   announce ++ end_events e
                   ++ snd (finish core args session_id (length tasks) e)
               end)
    /\ run_outcome core w args
       = if args_list args then Ok tt
         else match tasks_to_run args tasks with
              | Raise err => Raise err
              | Ok _ => Ok tt
              end.
Proof.
  unfold run_events, run_outcome, session_tasks, main. cbv zeta.
  destruct (start_session core w _ _ _ _ _) as [w1 session_id].
  destruct (session_status core w1 session_id) as [w2 tasks] eqn:S.
  cbn [snd]. eexists _, w2, session_id. split; [reflexivity|].
  destruct (args_list args).
  - cbn [fst snd]. split; reflexivity.
  - destruct (tasks_to_run args tasks) as [[announce to_run]|err].
    + destruct (finish core args session_id (length tasks) _) as [w3 closing].
      cbn [fst snd]. split; reflexivity.
    + cbn [fst snd]. rewrite app_nil_r. split; reflexivity.
Qed.



(** C1, as the code has it: [submit_session] is called if and only if no
    task selection was given ([args.task] is [None]), the run is not in
    list mode, and the loop was not left by the stop-on-fail [break]; and
    when the session is submitted, every task of the session was started,
    handed to the agent and completed. *)
Theorem session_submitted_iff :
  forall {World} (core : ERC3 World) (w : World) (args : Args),
    let evs := run_events core w args in
    (submitted evs = true <->
     args_task args = None /\ args_list args = false /\ stopped evs = false)
    /\ (submitted evs = true ->
        started evs = session_tasks core w args
        /\ agent_runs evs = session_tasks core w args
        /\ completed evs = session_tasks core w args).
Proof.
  intros World core w args evs.
  destruct (run_events_shape core w args)
    as (opening & w2 & session_id & Hop & Hev & _).
  cbv zeta in Hop, Hev. fold evs in Hev.
  set (tasks := session_tasks core w args) in *.
  assert (Oq : submitted opening = false /\ stopped opening = false
               /\ started opening = [] /\ agent_runs opening = []
               /\ completed opening = []).
  { rewrite Hop. repeat split; reflexivity. }
  destruct Oq as (O1 & O2 & O3 & O4 & O5).
  destruct (args_list args) eqn:L.
  - (* list mode *)
    destruct (listing_is_quiet (enumerate 1 tasks)) as (Q1 & _).
    cbv zeta in Q1.
    assert (N : submitted evs = false).
    { rewrite Hev, submitted_app, O1. cbn. exact Q1. }
    rewrite N. split; [split; [discriminate | intros (_ & ? & _); discriminate]
                      | discriminate].
  - unfold tasks_to_run in Hev.
    assert (All :
              forall announce,
                announce = [] ->
                evs = opening ++ announce
                      ++ end_events (run_tasks core args (choose_model args) w2
                                       (map (fun it => (fst it + 1, snd it))
                                            (enumerate 0 tasks)) 0)
                      ++ snd (finish core args session_id (length tasks)
                                (run_tasks core args (choose_model args) w2
                                   (map (fun it => (fst it + 1, snd it))
                                        (enumerate 0 tasks)) 0)) ->
                (submitted evs = true <->
                 run_all args = true /\ stopped evs = false)
                /\ (submitted evs = true ->
                    started evs = tasks /\ agent_runs evs = tasks
                    /\ completed evs = tasks)).
    { intros announce -> E. cbn [app] in E.
      set (e := run_tasks core args (choose_model args) w2
                  (map (fun it => (fst it + 1, snd it)) (enumerate 0 tasks)) 0)
        in *.
      destruct (loop_flags core args (choose_model args)
                  (map (fun it => (fst it + 1, snd it)) (enumerate 0 tasks))
                  w2 0) as [F1 F2].
      cbv zeta in F1, F2. fold e in F1, F2.
      pose proof (loop_not_stopped core args (choose_model args)
                    (map (fun it => (fst it + 1, snd it)) (enumerate 0 tasks))
                    w2 0) as NS.
      cbv zeta in NS. fold e in NS. rewrite enumerate_tasks in NS.
      unfold finish in E.
      destruct (run_all args) eqn:RA; cbn [andb] in E.
      - destruct (stopped_early e) eqn:SE; cbn [negb snd] in E.
        + assert (N : submitted evs = false).
          { rewrite E, !submitted_app, O1, F1. reflexivity. }
          assert (St : stopped evs = true).
          { rewrite E, !stopped_app, F2. apply orb_true_r. }
          rewrite N, St.
          split; [split; [discriminate | intros [_ ?]; discriminate]
                 | discriminate].
        + assert (Y : submitted evs = true).
          { rewrite E, !submitted_app, O1, F1. reflexivity. }
          assert (St : stopped evs = false).
          { rewrite E, !stopped_app, O2, F2. reflexivity. }
          rewrite Y, St. split; [tauto|]. intros _.
          destruct (NS eq_refl) as (N1 & N2 & N3 & _).
          rewrite E. unfold started, agent_runs, completed in *.
          rewrite !pick_app, N1, N2, N3, O3, O4, O5. cbn.
          rewrite !app_nil_r. auto.
      - cbn [snd] in E.
        assert (N : submitted evs = false).
        { rewrite E, !submitted_app, O1, F1. reflexivity. }
        rewrite N.
        split; [split; [discriminate | intros [? _]; discriminate]
               | discriminate]. }
    destruct (args_task args) as [[|c s]|] eqn:T.
    + (* an empty selection *)
      destruct (All [] eq_refl Hev) as [A1 A2]. unfold run_all in A1.
      rewrite T in A1. split; [|exact A2].
      split; [intros H; apply A1 in H; destruct H; discriminate
             | intros (? & _); discriminate].
    + (* a selection *)
      assert (N : submitted evs = false).
      { rewrite Hev, submitted_app, O1. cbn [orb].
        destruct (parse_task_range (String c s) (Z.of_nat (length tasks)))
          as [bounds|err]; cbn [bind]; [|reflexivity].
        destruct (select_tasks tasks _) as [selected|err]; cbn [bind];
          [|reflexivity].
        destruct (loop_flags core args (choose_model args) selected w2 0)
          as [F1 _].
        cbv zeta in F1. rewrite !submitted_app, F1. unfold finish, run_all.
        rewrite T. reflexivity. }
      rewrite N. split; [split; [discriminate | intros (? & _); discriminate]
                        | discriminate].
    + (* no selection *)
      destruct (All [] eq_refl Hev) as [A1 A2]. unfold run_all in A1.
      rewrite T in A1. split; [|exact A2].
      split; [intros H; apply A1 in H; tauto | intros (_ & _ & H)].
      apply A1. auto.
Qed.

Lemma session_submitted_iff_witness :
  submitted (run_events Demo.core O (Demo.args None false false)) = true
  /\ completed (run_events Demo.core O (Demo.args None false false))
     = Demo.tasks.
Proof.
  destruct (session_submitted_iff Demo.core O (Demo.args None false false))
    as [Iff All].
  assert (S : submitted (run_events Demo.core O (Demo.args None false false))
              = true).
  { apply Iff. repeat split; reflexivity. }
  split; [exact S|]. apply (All S).
Defined.

(** A run with [-t 1-3] over the three tasks of the session: every task
    is started and completed and the loop is not left early, and yet the
    session is not submitted. *)
Lemma full_range_is_not_submitted :
  session_tasks Demo.core O (Demo.args (Some "1-3") false false) = Demo.tasks
  /\ started (run_events Demo.core O (Demo.args (Some "1-3") false false))
     = Demo.tasks
  /\ completed (run_events Demo.core O (Demo.args (Some "1-3") false false))
     = Demo.tasks
  /\ stopped (run_events Demo.core O (Demo.args (Some "1-3") false false))
     = false
  /\ submitted (run_events Demo.core O (Demo.args (Some "1-3") false false))
     = false.
Proof. repeat split; reflexivity. Qed.

(** With the flag, a run over the third task, which is evaluated with
    score 0, and then the first one stops at the third task; the whole
    session stops at the second task, which has no evaluation; without
    the flag everything runs. *)
Lemma stop_on_fail_stops_at_first_zero_witness :
  started (end_events (run_tasks Demo.core (Demo.args None true false)
                                 "openai/gpt-4o" O
                                 [(3, Demo.t3); (1, Demo.t1)] 0))
  = [Demo.t3]
  /\ started (end_events (run_tasks Demo.core (Demo.args None true false)
                                    "openai/gpt-4o" O
                                    [(1, Demo.t1); (3, Demo.t3); (2, Demo.t2)]
                                    0))
     = [Demo.t1; Demo.t3]
  /\ started (end_events (run_tasks Demo.core (Demo.args None true false)
                                    "openai/gpt-4o" O Demo.numbered 0))
     = [Demo.t1; Demo.t2]
  /\ started (end_events (run_tasks Demo.core (Demo.args None true false)
                                    "openai/gpt-4o" O
                                    [(1, Demo.t1); (1, Demo.t1)] 0))
     = [Demo.t1; Demo.t1]
  /\ started (end_events (run_tasks Demo.core (Demo.args None false false)
                                    "openai/gpt-4o" O Demo.numbered 0))
     = Demo.tasks.
Proof.
  split; [|split; [|split; [|split]]].
  - destruct (stop_on_fail_stops_at_first_zero
                Demo.core (Demo.args None true false) "openai/gpt-4o"
                O [(3, Demo.t3); (1, Demo.t1)] 0) as (_ & H & _).
    apply (H eq_refl O
             {| result_eval := Some {| eval_score := 0; eval_logs := "no" |} |}
             {| eval_score := 0; eval_logs := "no" |});
      try reflexivity.
    intros i r' L. lia.
  - destruct (stop_on_fail_stops_at_first_zero
                Demo.core (Demo.args None true false) "openai/gpt-4o"
                O [(1, Demo.t1); (3, Demo.t3); (2, Demo.t2)] 0)
      as (_ & H & _).
    apply (H eq_refl 1%nat
             {| result_eval := Some {| eval_score := 0; eval_logs := "no" |} |}
             {| eval_score := 0; eval_logs := "no" |});
      try reflexivity.
    intros [|i] r' L; [|lia]. intros [= <-]. eexists. split; reflexivity.
  - destruct (stop_on_fail_stops_at_first_zero
                Demo.core (Demo.args None true false) "openai/gpt-4o"
                O Demo.numbered 0) as (H & _).
    exact (proj1 (H eq_refl)).
  - destruct (stop_on_fail_stops_at_first_zero
                Demo.core (Demo.args None true false) "openai/gpt-4o"
                O [(1, Demo.t1); (1, Demo.t1)] 0) as (_ & _ & H & _).
    apply (H eq_refl). cbn. intros r [<-|[<-|[]]]; eexists; split; reflexivity.
  - destruct (stop_on_fail_stops_at_first_zero
                Demo.core (Demo.args None false false) "openai/gpt-4o"
                O Demo.numbered 0) as (_ & _ & _ & H).
    exact (proj1 (H eq_refl)).
Defined.

Lemma missing_evaluation_counts_as_zero_witness :
  score_of {| result_eval := None |} = 0%Q
  /\ stopped_early (run_tasks Demo.core (Demo.args None true false)
                              "openai/gpt-4o" O Demo.numbered 0) = true
  /\ started (end_events (run_tasks Demo.core (Demo.args None true false)
                                    "openai/gpt-4o" O Demo.numbered 0))
     = [Demo.t1; Demo.t2].
Proof.
  destruct (missing_evaluation_counts_as_zero
              Demo.core (Demo.args None true false) "openai/gpt-4o")
    as [Hzero Hstop].
  split; [apply Hzero; reflexivity|].
  destruct (Hstop O Demo.numbered 0 1%nat {| result_eval := None |}
                  eq_refl eq_refl eq_refl) as (S & _ & Exact).
  split; [exact S|].
  apply Exact. intros [|i] x L; [intros [= <-]; reflexivity | lia].
Defined.

Lemma tasks_run_one_at_a_time_witness :
  (exists j num,
     nth_error Demo.numbered j = Some (num, Demo.t2)
     /\ started (firstn 10 (end_events
                   (run_tasks Demo.core (Demo.args None false false)
                              "openai/gpt-4o" O Demo.numbered 0)))
        = map snd (firstn j Demo.numbered)
     /\ agent_runs (firstn 10 (end_events
                     (run_tasks Demo.core (Demo.args None false false)
                                "openai/gpt-4o" O Demo.numbered 0)))
        = map snd (firstn j Demo.numbered)
     /\ completed (firstn 10 (end_events
                     (run_tasks Demo.core (Demo.args None false false)
                                "openai/gpt-4o" O Demo.numbered 0)))
        = map snd (firstn j Demo.numbered))
  /\ 0 <= in_progress (firstn 11 (end_events
                         (run_tasks Demo.core (Demo.args None false false)
                                    "openai/gpt-4o" O Demo.numbered 0))) <= 1.
Proof.
  destruct (tasks_run_one_at_a_time
              Demo.core (Demo.args None false false) "openai/gpt-4o"
              O Demo.numbered 0) as [Hstart Hone].
  split; [apply (Hstart 10%nat Demo.t2); reflexivity | apply (Hone 11%nat)].
Defined.

Lemma agent_exception_is_contained_witness :
  nth_error
    (started (end_events
                (run_tasks Demo.core (Demo.args None false false)
                           "openai/gpt-4o" O [(2, Demo.t2); (3, Demo.t3)] 0)))
    1
  = Some Demo.t3
  /\ score_of (snd (complete_task Demo.core O Demo.t2)) = 0%Q.
Proof.
  destruct (agent_exception_is_contained
              Demo.core (Demo.args None false false) "openai/gpt-4o"
              O 2 Demo.t2 [(3, Demo.t3)] 0 O (OtherException "boom") eq_refl)
    as (_ & Hscore & Hnext).
  split; [apply (Hnext eq_refl 3 Demo.t3 []); reflexivity|].
  apply Hscore. reflexivity.
Defined.

(** With the stop-on-fail flag, the agent raises on the second task of
    the session, the harness gives no evaluation, and the third task,
    next in the run list, is never started. *)
Lemma agent_exception_then_stop :
  snd (run_agent Demo.core O "openai/gpt-4o" Demo.t2 openrouter)
  = Some (OtherException "boom")
  /\ started (end_events
                (run_tasks Demo.core (Demo.args None true false)
                           "openai/gpt-4o" O [(2, Demo.t2); (3, Demo.t3)] 0))
     = [Demo.t2]
  /\ started (run_events Demo.core O (Demo.args (Some "2-3") true false))
     = [Demo.t2]
  /\ ~ In Demo.t3
       (started (run_events Demo.core O (Demo.args (Some "2-3") true false))).
Proof.
  repeat split; try reflexivity.
  cbn. intros [H|[]]. discriminate.
Qed.

(** ** The tool adapters *)

(** Every adapter answers a failed dispatch alike. *)
Lemma adapter_on_failure (store_api : StoreClient) (call : tool_call)
      (e : exception) :
  store_api (request_of call) = Raise e ->
  snd (create_store_tools store_api call) = error_json (message e).
Proof.
  intros F.
  destruct call; cbn [create_store_tools request_of] in *;
    unfold list_products, view_basket, add_product_to_basket,
           remove_item_from_basket, apply_coupon, remove_coupon,
           checkout_basket;
    cbv zeta; rewrite F; destruct e; reflexivity.
Qed.

(** Every adapter answers a dispatch that returned with the compact text
    of the response, dumped without its unset and its [None] fields. *)
Lemma adapter_on_success (store_api : StoreClient) (call : tool_call)
      (response : model) :
  store_api (request_of call) = Ok response ->
  snd (create_store_tools store_api call) = model_dump_json true true response.
Proof.
  intros F.
  destruct call; cbn [create_store_tools request_of] in *;
    unfold list_products, view_basket, add_product_to_basket,
           remove_item_from_basket, apply_coupon, remove_coupon,
           checkout_basket;
    cbv zeta; rewrite F; reflexivity.
Qed.

(** C3: whenever the dispatch of a tool adapter fails, with the
    [ApiException] of the service or with any other exception, the
    adapter returns [error_json] of the message, the text of the JSON
    object with the one key "error", and raises nothing; the value
    returned depends on the message alone, so it does not tell the two
    kinds of failure apart. *)
Theorem adapters_report_failures_uniformly :
  forall (store_api : StoreClient) (call : tool_call) (e : exception),
    store_api (request_of call) = Raise e ->
    snd (create_store_tools store_api call) = error_json (message e)
    /\ error_json (message e)
       = json_dumps (JObj [("error", JStr (message e))])
    /\ error_json (message e)
       = ("{" ++ Json.quote Json.python_default "error" ++ ": "
          ++ Json.quote Json.python_default (message e) ++ "}")%string
    /\ (forall (other_api : StoreClient) (e' : exception),
          other_api (request_of call) = Raise e' ->
          message e' = message e ->
          snd (create_store_tools other_api call)
          = snd (create_store_tools store_api call)).
Proof.
  intros store_api call e F.
  split; [now apply adapter_on_failure|].
  split; [reflexivity|]. split; [reflexivity|].
  intros other_api e' F' M.
  rewrite (adapter_on_failure _ _ _ F), (adapter_on_failure _ _ _ F'), M.
  reflexivity.
Qed.

Lemma adapters_report_failures_uniformly_witness :
  snd (create_store_tools
         (Demo.always (Raise (ApiException "basket is empty" "400")))
         Call_checkout_basket)
  = Demo.quoted "{'error': 'basket is empty'}"
  /\ snd (create_store_tools
            (Demo.always (Raise (OtherException "basket is empty")))
            Call_checkout_basket)
     = snd (create_store_tools
              (Demo.always (Raise (ApiException "basket is empty" "400")))
              Call_checkout_basket).
Proof.
  destruct (adapters_report_failures_uniformly
              (Demo.always (Raise (ApiException "basket is empty" "400")))
              Call_checkout_basket
              (ApiException "basket is empty" "400") eq_refl)
    as (H & _ & _ & Same).
  split; [exact H|].
  apply (Same (Demo.always (Raise (OtherException "basket is empty")))
              (OtherException "basket is empty")); reflexivity.
Defined.

(** The object that a model is dumped to has one member for each field
    that is kept, in the order of the fields. *)
Lemma dump_model (exclude_none exclude_unset : bool) (m : model) :
  dump exclude_none exclude_unset (VModel m)
  = JObj (map (fun f => (field_name f,
                         dump exclude_none exclude_unset (field_value f)))
              (filter (kept exclude_none exclude_unset) m)).
Proof.
  cbn [dump]. f_equal.
  induction m as [|f m IH]; [reflexivity|].
  cbn [filter]. destruct (kept exclude_none exclude_unset f);
    [cbn [map]; f_equal|]; exact IH.
Qed.

Lemma dump_null (exclude_none exclude_unset : bool) (v : value) :
  is_null (dump exclude_none exclude_unset v) = is_none v.
Proof. destruct v; reflexivity. Qed.

(** With [exclude_none] no member of a dumped object is [null], however
    deep the object lies. *)
Lemma dump_no_null_member (exclude_unset : bool) (v : value) :
  no_null_member (dump true exclude_unset v) = true.
Proof.
  induction v as [ | b | z | x | s | items IH | fields IH ]
    using value_induction;
    try reflexivity.
  - cbn [dump no_null_member]. rewrite forallb_forall.
    intros j [v [<- Hv]]%in_map_iff.
    rewrite Forall_forall in IH. now apply IH.
  - rewrite dump_model. cbn [no_null_member]. rewrite forallb_forall.
    intros kv [f [<- [Hf K]%filter_In]]%in_map_iff. cbn [snd].
    rewrite dump_null. rewrite Forall_forall in IH. rewrite (IH f Hf).
    unfold kept in K. cbn [andb] in K.
    destruct (is_none (field_value f)); [|reflexivity].
    now rewrite andb_false_r in K.
Qed.

Lemma same_name_same_field {A B} (h : A -> B) (l : list A) :
  NoDup (map h l) ->
  forall a b, In a l -> In b l -> h a = h b -> a = b.
Proof.
  induction l as [|x l IH]; cbn; [contradiction|].
  intros N a b Ha Hb E. inversion N as [|? ? Nx Nl]; subst.
  destruct Ha as [<-|Ha], Hb as [<-|Hb]; trivial.
  - contradiction Nx. rewrite E. now apply in_map.
  - contradiction Nx. rewrite <- E. now apply in_map.
  - now apply IH.
Qed.

(** C6, as the code has it: on success every tool adapter returns the
    compact JSON text of the response with its unset fields and its
    [None] fields left out: the object written has a key for a field
    exactly when the field is set and is not [None], so no field that is
    unset or [None] is a key of it, and no object nested in it has a
    [null] member either. A field that is set is written whatever its
    value, an empty list or an empty string too. *)
Theorem adapters_omit_unset_and_none :
  forall (store_api : StoreClient) (call : tool_call) (response : model),
    store_api (request_of call) = Ok response ->
    NoDup (map field_name response) ->
    exists members,
      model_dump true true response = JObj members
      /\ snd (create_store_tools store_api call)
         = Json.write Json.compact (JObj members)
      /\ (forall f,
            In f response ->
            field_set f = false \/ field_value f = VNone ->
            ~ In (field_name f) (map fst members))
      /\ (forall f,
            In f response ->
            field_set f = true -> field_value f <> VNone ->
            In (field_name f,
                dump true true (field_value f)) members)
      /\ no_null_member (JObj members) = true.
Proof.
  intros store_api call response F N.
  exists (map (fun f => (field_name f, dump true true (field_value f)))
              (filter (kept true true) response)).
  assert (D : model_dump true true response
              = JObj (map (fun f => (field_name f,
                                     dump true true (field_value f)))
                          (filter (kept true true) response)))
    by apply dump_model.
  split; [exact D|].
  split; [rewrite (adapter_on_success _ _ _ F); unfold model_dump_json;
          now rewrite D|].
  split; [|split].
  - intros f Hf Hex Hin. rewrite map_map in Hin. cbn [fst] in Hin.
    apply in_map_iff in Hin as (g & Hname & [Hg K]%filter_In).
    assert (g = f) by (apply (same_name_same_field field_name response N);
                       assumption).
    subst g. unfold kept in K. cbn [andb] in K.
    destruct Hex as [Hs|Hv]; [rewrite Hs in K | rewrite Hv in K];
      cbn in K; [discriminate|].
    now rewrite andb_false_r in K.
  - intros f Hf Hs Hv.
    apply (in_map (fun f => (field_name f, dump true true (field_value f)))).
    apply filter_In. split; [exact Hf|].
    unfold kept. rewrite Hs. destruct (field_value f); try reflexivity.
    now contradiction Hv.
  - rewrite <- D. apply dump_no_null_member.
Qed.

Lemma adapters_omit_unset_and_none_witness :
  snd (create_store_tools (Demo.always (Ok Demo.basket)) Call_view_basket)
  = Demo.quoted "{'Items':[],'Total':0.0}"
  /\ model_dump true true Demo.basket
     = JObj [("Items", JArr []); ("Total", JFloat "0.0")].
Proof.
  assert (N : NoDup (map field_name Demo.basket)).
  { repeat constructor; cbn; intuition discriminate. }
  destruct (adapters_omit_unset_and_none
              (Demo.always (Ok Demo.basket)) Call_view_basket Demo.basket
              eq_refl N) as (members & D & T & _).
  split; [|reflexivity].
  rewrite T, <- D. reflexivity.
Defined.

(** A response whose fields are all set, to an empty list, an empty
    string and a model without fields: each of the three is a key of the
    object that [view_basket] returns. *)
Lemma empty_fields_are_written_by_adapters :
  model_dump true true
    [("Items", true, VList []); ("Coupon", true, VStr "");
     ("Meta", true, VModel [])]
  = JObj [("Items", JArr []); ("Coupon", JStr ""); ("Meta", JObj [])]
  /\ snd (create_store_tools
            (Demo.always
               (Ok [("Items", true, VList []); ("Coupon", true, VStr "");
                    ("Meta", true, VModel [])]))
            Call_view_basket)
     = Demo.quoted "{'Items':[],'Coupon':'','Meta':{}}"
  /\ In "Items"
        (map fst [("Items", JArr []); ("Coupon", JStr ""); ("Meta", JObj [])]).
Proof. repeat split; try reflexivity. cbn. auto. Qed.

(** * Further properties *)

(** ** A range in decimal is read back *)

Lemma scan_digit (c : ascii) (v : Z) (prev : bool) (acc : Z) (n : N)
      (s : string) :
  PyStr.digit_value c = Some v ->
  PyStr.scan_digits prev acc n (String c s)
  = PyStr.scan_digits false (10 * acc + v) (N.succ n) s.
Proof. intros H. cbn [PyStr.scan_digits]. now rewrite H. Qed.

Ltac scan_one_digit :=
  match goal with
  | |- PyStr.scan_digits _ _ _ (String ?c _) = _ =>
      let v := eval vm_compute in (Z.of_N (PyStr.code c) - 48) in
      rewrite (scan_digit c v) by reflexivity
  end.

(** The digits of a decimal number, read after a part that is not 0. *)
Lemma scan_digits_after (d : Decimal.uint) :
  forall (prev : bool) (p : positive) (n : N),
    PyStr.scan_digits prev (Z.pos p) n (NilEmpty.string_of_uint d)
    = Some (Z.pos (Pos.of_uint_acc d p),
            (n + N.of_nat (Decimal.nb_digits d))%N,
            match d with Decimal.Nil => prev | _ => false end,
            EmptyString).
Proof.
  induction d as [|d IH|d IH|d IH|d IH|d IH|d IH|d IH|d IH|d IH|d IH];
    intros prev p n;
    [cbn; now rewrite N.add_0_r|..];
    cbn [NilEmpty.string_of_uint Pos.of_uint_acc Decimal.nb_digits];
    scan_one_digit;
    match goal with
    | |- PyStr.scan_digits false ?a _ _
         = Some (Z.pos (Pos.of_uint_acc _ ?q), _, _, _) =>
        replace a with (Z.pos q) by lia
    end;
    rewrite IH; (replace (N.succ n + N.of_nat (Decimal.nb_digits d))%N
                  with (n + N.of_nat (S (Decimal.nb_digits d)))%N by lia);
    destruct d; reflexivity.
Qed.

(** The digits of a decimal number, read from the start. *)
Lemma scan_digits_from_zero (d : Decimal.uint) :
  forall (prev : bool) (n : N),
    PyStr.scan_digits prev 0 n (NilEmpty.string_of_uint d)
    = Some (Z.of_N (Pos.of_uint d),
            (n + N.of_nat (Decimal.nb_digits d))%N,
            match d with Decimal.Nil => prev | _ => false end,
            EmptyString).
Proof.
  induction d as [|d IH|d IH|d IH|d IH|d IH|d IH|d IH|d IH|d IH|d IH];
    intros prev n;
    [cbn; now rewrite N.add_0_r|..];
    cbn [NilEmpty.string_of_uint Pos.of_uint Decimal.nb_digits];
    scan_one_digit;
    match goal with
    | |- PyStr.scan_digits false ?a _ _ = _ =>
        let a' := eval vm_compute in a in change a with a'
    end;
    first [rewrite IH | rewrite scan_digits_after];
    (replace (N.succ n + N.of_nat (Decimal.nb_digits d))%N
       with (n + N.of_nat (S (Decimal.nb_digits d)))%N by lia);
    destruct d; reflexivity.
Qed.

Lemma uint_text_digits (d : Decimal.uint) :
  all_chars is_digit (NilEmpty.string_of_uint d) = true.
Proof. induction d; cbn [NilEmpty.string_of_uint all_chars]; auto. Qed.

Lemma uint_text_length (d : Decimal.uint) :
  String.length (NilEmpty.string_of_uint d) = Decimal.nb_digits d.
Proof. induction d; cbn; congruence. Qed.

Lemma uint_text_head (d : Decimal.uint) :
  d <> Decimal.Nil ->
  exists c rest,
    NilEmpty.string_of_uint d = String c rest /\ is_digit c = true.
Proof. destruct d; [congruence|..]; intros _; do 2 eexists; now split. Qed.

(** A digit is neither white space, nor a sign, nor an underscore. *)
Lemma digit_alone (c : ascii) :
  is_digit c = true ->
  PyStr.is_space c = false /\ Ascii.eqb c "+" = false
  /\ Ascii.eqb c "-" = false /\ Ascii.eqb c "_" = false.
Proof.
  destruct c as [[] [] [] [] [] [] [] []]; vm_compute;
    intros H; try discriminate H; repeat split.
Qed.

Lemma pos_uint_not_nil (p : positive) : Pos.to_uint p <> Decimal.Nil.
Proof.
  intros E. pose proof (DecimalPos.Unsigned.of_to p) as H.
  rewrite E in H. discriminate.
Qed.

Lemma int_digits_decimal (p : positive) :
  (Decimal.nb_digits (Pos.to_uint p) <= 4300)%nat ->
  PyStr.int_digits (NilEmpty.string_of_uint (Pos.to_uint p)) = Some (Z.pos p).
Proof.
  intros L. pose proof (pos_uint_not_nil p) as N.
  pose proof (DecimalPos.Unsigned.of_to p) as V.
  unfold PyStr.int_digits. rewrite scan_digits_from_zero, V.
  destruct (uint_text_head _ N) as (c & rest & -> & D).
  destruct (digit_alone c D) as (_ & _ & _ & U).
  cbn [PyStr.starts_with_underscore]. rewrite U.
  replace (match Pos.to_uint p with Decimal.Nil => false | _ => false end)
    with false by now destruct (Pos.to_uint p).
  assert (K : (1 <= Decimal.nb_digits (Pos.to_uint p))%nat)
    by (destruct (Pos.to_uint p);
        [congruence | cbn [Decimal.nb_digits]; lia..]).
  replace (0 + N.of_nat (Decimal.nb_digits (Pos.to_uint p)) =? 0)%N
    with false by (symmetry; apply N.eqb_neq; lia).
  cbn [PyStr.skip_spaces]. unfold PyStr.int_max_str_digits.
  replace (4300 <? 0 + N.of_nat (Decimal.nb_digits (Pos.to_uint p)))%N
    with false by (symmetry; apply N.ltb_ge; lia).
  reflexivity.
Qed.

(** [int(str(z))] is [z], for a number within the limit on digits. *)
Lemma int_decimal (z : Z) :
  (String.length (Json.decimal z) <= 4300)%nat ->
  PyStr.int (Json.decimal z) = Some z.
Proof.
  destruct z as [|p|p]; [reflexivity|..]; unfold Json.decimal;
    cbn [Z.to_int NilZero.string_of_int]; unfold NilZero.string_of_uint;
    pose proof (pos_uint_not_nil p) as N;
    (replace (match Pos.to_uint p with
              | Decimal.Nil => "0"
              | _ => NilEmpty.string_of_uint (Pos.to_uint p)
              end)
       with (NilEmpty.string_of_uint (Pos.to_uint p))
       by (destruct (Pos.to_uint p); [congruence | reflexivity..])).
  - rewrite uint_text_length. intros L.
    pose proof (int_digits_decimal p L) as I. unfold PyStr.int.
    destruct (uint_text_head _ N) as (c & rest & E & D). rewrite E in *.
    destruct (digit_alone c D) as (S & Pl & Mi & _).
    cbn [PyStr.skip_spaces]. now rewrite S, Pl, Mi.
  - cbn [String.length]. rewrite uint_text_length. intros L.
    unfold PyStr.int. cbn.
    rewrite int_digits_decimal by lia. reflexivity.
Qed.

Lemma digits_without_separator (s : string) :
  all_chars is_digit s = true -> PyStr.contains "-" s = false.
Proof.
  induction s as [|c s IH]; cbn; [reflexivity|].
  intros [D H]%andb_prop. destruct (digit_alone c D) as (_ & _ & -> & _).
  now apply IH.
Qed.

Lemma split_at_first_separator (sep : ascii) (s1 s2 : string) :
  PyStr.contains sep s1 = false ->
  PyStr.split sep (s1 ++ String sep s2) = s1 :: PyStr.split sep s2.
Proof.
  induction s1 as [|c s1 IH]; cbn.
  - now rewrite Ascii.eqb_refl.
  - destruct (Ascii.eqb c sep); [discriminate|]. intros H.
    now rewrite (IH H).
Qed.

Lemma decimal_of_positive (z : Z) :
  0 < z -> all_chars is_digit (Json.decimal z) = true.
Proof.
  destruct z as [|p|p]; try lia. intros _. unfold Json.decimal.
  cbn [Z.to_int NilZero.string_of_int]. unfold NilZero.string_of_uint.
  pose proof (pos_uint_not_nil p) as N.
  destruct (Pos.to_uint p) eqn:E; [congruence|..]; rewrite <- E;
    apply uint_text_digits.
Qed.

(** X1: the range that [main] prints, and that the help of [-t] shows,
    is read back: for 1 <= start <= end <= max_tasks the text
    "start-end" in decimal parses to (start, end), and the decimal text
    of one number in range parses to that number twice. *)
Theorem range_text_is_read_back :
  forall start_idx end_idx max_tasks,
    1 <= start_idx -> start_idx <= end_idx -> end_idx <= max_tasks ->
    (String.length (Json.decimal start_idx) <= 4300)%nat ->
    (String.length (Json.decimal end_idx) <= 4300)%nat ->
    parse_task_range (range_text start_idx end_idx) max_tasks
    = Ok (start_idx, end_idx)
    /\ parse_task_range (Json.decimal end_idx) max_tasks
       = Ok (end_idx, end_idx).
Proof.
  intros a b m La Lab Lb Da Db.
  pose proof (digits_without_separator _ (decimal_of_positive a ltac:(lia)))
    as Na.
  pose proof (digits_without_separator _ (decimal_of_positive b ltac:(lia)))
    as Nb.
  split; apply parse_task_range_returns; (split; [|lia]).
  - rewrite (parse_bounds_segments (p0 := Json.decimal a)
               (p1 := Json.decimal b) (more := [])).
    + unfold py_int. rewrite !int_decimal by assumption. reflexivity.
    + unfold range_text.
      change ("-" ++ Json.decimal b)%string
        with (String "-" (Json.decimal b)).
      rewrite (split_at_first_separator _ _ _ Na).
      now rewrite (split_without_separator _ _ Nb).
  - unfold parse_bounds, py_int. rewrite Nb, int_decimal by assumption.
    reflexivity.
Qed.

Lemma range_text_is_read_back_witness :
  parse_task_range (range_text 2 17) 20 = Ok (2, 17)
  /\ parse_task_range (Json.decimal 17) 20 = Ok (17, 17).
Proof.
  apply (range_text_is_read_back 2 17 20); cbn; lia.
Defined.

(** ** The tasks that are selected *)

Lemma skipn_at {A} (l : list A) :
  forall k a, nth_error l k = Some a -> skipn k l = a :: skipn (S k) l.
Proof.
  induction l as [|x l IH]; intros [|k] a; cbn; try discriminate.
  - now intros [= ->].
  - intros H. now rewrite (IH k a H).
Qed.

Lemma getitem_at {A} (l : list A) (k : Z) :
  0 <= k < Z.of_nat (length l) ->
  exists a, getitem l k = Ok a /\ nth_error l (Z.to_nat k) = Some a.
Proof.
  intros B. unfold getitem, item.
  replace ((0 <=? k) && (k <? Z.of_nat (length l))) with true by lia.
  destruct (nth_error l (Z.to_nat k)) as [a|] eqn:N; [now exists a|].
  apply nth_error_None in N. lia.
Qed.

(** The comprehension over a range within the list takes a block of the
    list and numbers it. *)
Lemma select_tasks_block (tasks : list TaskInfo) (count : nat) :
  forall start,
    1 <= start ->
    start + Z.of_nat count - 1 <= Z.of_nat (length tasks) ->
    select_tasks tasks (range_from start count)
    = Ok (combine (range_from start count)
                  (firstn count (skipn (Z.to_nat (start - 1)) tasks))).
Proof.
  induction count as [|count IH]; intros start L U;
    cbn [range_from select_tasks]; [reflexivity|].
  destruct (getitem_at tasks (start - 1)) as (task & -> & N); [lia|].
  rewrite (IH (start + 1)) by lia. cbn [bind].
  rewrite (skipn_at _ _ _ N). cbn [firstn combine].
  replace (Z.to_nat (start + 1 - 1)) with (S (Z.to_nat (start - 1))) by lia.
  reflexivity.
Qed.

Lemma enumerate_numbers {A} (l : list A) :
  forall first,
    map (fun it => (fst it + 1, snd it)) (enumerate first l)
    = combine (range_from (first + 1) (length l)) l.
Proof.
  induction l as [|a l IH]; intros first; cbn; [reflexivity|].
  now rewrite IH.
Qed.

(** The tasks to run, as a block of the session's tasks. *)
Lemma tasks_to_run_block :
  forall (args : Args) (tasks : list TaskInfo) announce to_run,
    tasks_to_run args tasks = Ok (announce, to_run) ->
    exists (first : Z) (count : nat),
      to_run
      = combine (range_from first count)
                (firstn count (skipn (Z.to_nat (first - 1)) tasks))
      /\ 1 <= first
      /\ first + Z.of_nat count - 1 <= Z.of_nat (length tasks)
      /\ length to_run = count
      /\ match args_task args with
         | Some (String c s) =>
             parse_task_range (String c s) (Z.of_nat (length tasks))
             = Ok (first, first + Z.of_nat count - 1)
             /\ (1 <= count)%nat
             /\ announce
                = [EvPrint (PrRunningTasks first
                                           (first + Z.of_nat count - 1))]
         | _ => first = 1 /\ count = length tasks /\ announce = []
         end.
Proof.
  intros args tasks announce to_run. unfold tasks_to_run.
  assert (Len : forall first count,
             1 <= first ->
             first + Z.of_nat count - 1 <= Z.of_nat (length tasks) ->
             length (combine (range_from first count)
                       (firstn count (skipn (Z.to_nat (first - 1)) tasks)))
             = count).
  { intros first count L U. rewrite length_combine, length_firstn, length_skipn.
    assert (R : forall n f, length (range_from f n) = n)
      by (induction n; intros; cbn; auto).
    rewrite R. lia. }
  assert (All : @Ok error _
                    ([] : list event,
                     map (fun it => (fst it + 1, snd it)) (enumerate 0 tasks))
                = Ok (announce, to_run) ->
                exists first count,
                  to_run
                  = combine (range_from first count)
                      (firstn count (skipn (Z.to_nat (first - 1)) tasks))
                  /\ 1 <= first
                  /\ first + Z.of_nat count - 1 <= Z.of_nat (length tasks)
                  /\ length to_run = count
                  /\ first = 1 /\ count = length tasks /\ announce = []).
  { intros [= <- <-]. exists 1, (length tasks).
    rewrite enumerate_numbers.
    change (Z.to_nat (1 - 1)) with O. cbn [skipn]. rewrite firstn_all.
    split; [reflexivity|]. split; [lia|]. split; [lia|].
    split; [|repeat split].
    rewrite length_combine.
    assert (R : forall n f, length (range_from f n) = n)
      by (induction n; intros; cbn; auto).
    rewrite R. lia. }
  destruct (args_task args) as [[|c s]|]; [exact All | | exact All].
  destruct (parse_task_range (String c s) (Z.of_nat (length tasks)))
    as [[start end_]|err] eqn:P; cbn [bind fst snd]; [|discriminate].
  pose proof P as P'.
  apply parse_task_range_returns in P' as (_ & L & M & U).
  unfold range.
  rewrite (select_tasks_block tasks (Z.to_nat (end_ + 1 - start)) start)
    by lia.
  cbn [bind]. intros [= <- <-].
  exists start, (Z.to_nat (end_ + 1 - start)).
  replace (start + Z.of_nat (Z.to_nat (end_ + 1 - start)) - 1) with end_
    by lia.
  repeat split; try lia; try reflexivity.
  apply Len; lia.
Qed.

Lemma numbered_block_member (n : Z) (t : TaskInfo) (count : nat) :
  forall (first : Z) (l : list TaskInfo),
    In (n, t) (combine (range_from first count) l) ->
    first <= n /\ nth_error l (Z.to_nat (n - first)) = Some t.
Proof.
  induction count as [|count IH]; intros first [|x l]; cbn; try contradiction.
  intros [[= <- <-]|H].
  - split; [lia|]. now replace (first - first) with 0 by lia.
  - destruct (IH _ _ H) as [L N]. split; [lia|].
    replace (Z.to_nat (n - first)) with (S (Z.to_nat (n - (first + 1))))
      by lia.
    exact N.
Qed.

Lemma block_member (tasks : list TaskInfo) (n : Z) (t : TaskInfo)
      (first : Z) (count : nat) :
  1 <= first ->
  In (n, t) (combine (range_from first count)
                     (firstn count (skipn (Z.to_nat (first - 1)) tasks))) ->
  1 <= n <= Z.of_nat (length tasks)
  /\ nth_error tasks (Z.to_nat (n - 1)) = Some t.
Proof.
  intros L H. apply numbered_block_member in H as [Ln N].
  assert (N' : nth_error tasks (Z.to_nat (n - 1)) = Some t).
  { destruct (Nat.lt_ge_cases (Z.to_nat (n - first)) count) as [I|I].
    - rewrite nth_error_firstn in N.
      replace (Z.to_nat (n - first) <? count)%nat with true in N
        by (symmetry; now apply Nat.ltb_lt).
      rewrite nth_error_skipn in N.
      now replace (Z.to_nat (first - 1) + Z.to_nat (n - first))%nat
        with (Z.to_nat (n - 1)) in N by lia.
    - assert (nth_error
                (firstn count (skipn (Z.to_nat (first - 1)) tasks))
                (Z.to_nat (n - first)) = None).
      { apply nth_error_None. rewrite length_firstn. lia. }
      congruence. }
  split; [|exact N'].
  assert (Z.to_nat (n - 1) < length tasks)%nat
    by (apply nth_error_Some; congruence).
  lia.
Qed.

(** X2: the tasks to run are always a block of consecutive tasks of the
    session, each paired with its position counted from 1: the positions
    start to end of a selection that [parse_task_range] accepts, and
    every task when there is no selection (or an empty one). So every
    number in the run list is the position of its task in the session. *)
Theorem tasks_to_run_is_a_numbered_block :
  forall (args : Args) (tasks : list TaskInfo) announce to_run,
    tasks_to_run args tasks = Ok (announce, to_run) ->
    (exists (first : Z) (count : nat),
       to_run
       = combine (range_from first count)
                 (firstn count (skipn (Z.to_nat (first - 1)) tasks))
       /\ length to_run = count
       /\ match args_task args with
          | Some (String c s) =>
              parse_task_range (String c s) (Z.of_nat (length tasks))
              = Ok (first, first + Z.of_nat count - 1)
          | _ => first = 1 /\ count = length tasks
          end)
    /\ (forall n t,
          In (n, t) to_run ->
          1 <= n <= Z.of_nat (length tasks)
          /\ nth_error tasks (Z.to_nat (n - 1)) = Some t).
Proof.
  intros args tasks announce to_run H.
  destruct (tasks_to_run_block _ _ _ _ H)
    as (first & count & E & L & U & Len & M).
  split.
  - exists first, count. split; [exact E|]. split; [exact Len|].
    destruct (args_task args) as [[|c s]|]; tauto.
  - intros n t I. rewrite E in I. now apply (block_member tasks n t first count).
Qed.

Lemma tasks_to_run_is_a_numbered_block_witness :
  tasks_to_run (Demo.args (Some "2-3") false false) Demo.tasks
  = Ok ([EvPrint (PrRunningTasks 2 3)], [(2, Demo.t2); (3, Demo.t3)])
  /\ nth_error Demo.tasks (Z.to_nat (3 - 1)) = Some Demo.t3.
Proof.
  split; [reflexivity|].
  destruct (tasks_to_run_is_a_numbered_block
              (Demo.args (Some "2-3") false false) Demo.tasks
              [EvPrint (PrRunningTasks 2 3)] [(2, Demo.t2); (3, Demo.t3)]
              eq_refl) as (_ & N).
  apply (N 3 Demo.t3). cbn. auto.
Defined.

(** ** Every run of [main] *)

Lemma loop_event_grows (model_id : string) (provider : Provider)
      (x : Z * TaskInfo) (rest : list (Z * TaskInfo)) (ev : event) :
  loop_event model_id provider rest ev ->
  loop_event model_id provider (x :: rest) ev.
Proof.
  destruct ev as [| | | | | | |line]; cbn; try tauto.
  destruct line; cbn; tauto.
Qed.

(** The loop calls nothing but [start_task], [run_agent] and
    [complete_task], on tasks of its list and under the model and
    provider it was given. *)
Lemma loop_events {World} (core : ERC3 World) (args : Args)
      (model_id : string) (to_run : list (Z * TaskInfo)) :
  forall (w : World) (count : Z),
    Forall (loop_event model_id (args_provider args) to_run)
           (end_events (run_tasks core args model_id w to_run count)).
Proof.
  induction to_run as [|[task_num task] rest IH]; intros w count.
  - constructor.
  - rewrite run_tasks_step. cbv zeta.
    assert (B : forall raised r,
               Forall (loop_event model_id (args_provider args)
                                  ((task_num, task) :: rest))
                      (body_events args model_id task_num task raised r)).
    { intros raised r. destruct raised, r as [[ev|]];
        repeat constructor; cbn; auto. }
    destruct (args_stop_on_fail args && Qeq_bool _ 0); cbn [end_events];
      apply Forall_app; (split; [apply B|]).
    + repeat constructor; cbn; auto.
    + eapply Forall_impl; [|apply IH]. intros ev. apply loop_event_grows.
Qed.

(** The three ways in which [main] ends. *)
Lemma run_events_cases {World} (core : ERC3 World) (w : World) (args : Args) :
  let evs := run_events core w args in
  let tasks := session_tasks core w args in
  let model_id := choose_model args in
  exists (w2 : World) (session_id : string),
    let opening :=
      [EvStartSession "store" "my"
         ("LangChain Agent (" ++ model_id ++ ")")%string
         ("LangChain create_agent with "
          ++ provider_name (args_provider args))%string
         ["compete_accuracy"];
       EvPrint (PrProviderModel (args_provider args) model_id);
       EvSessionStatus session_id;
       EvPrint (PrSessionHasTasks (length tasks))] in
    (args_list args = true
     /\ evs = opening
              ++ EvPrint PrAvailableTasks
                 :: map (fun it => EvPrint (PrListEntry (fst it) (snd it)))
                        (enumerate 1 tasks)
     /\ run_outcome core w args = Ok tt)
    \/ (args_list args = false
        /\ exists err,
             tasks_to_run args tasks = Raise err
             /\ evs = opening
             /\ run_outcome core w args = Raise err)
    \/ (args_list args = false
        /\ exists announce to_run,
             tasks_to_run args tasks = Ok (announce, to_run)
             /\ evs = opening ++ announce
                      ++ end_events (run_tasks core args model_id w2 to_run 0)
                      ++ snd (finish core args session_id (length tasks)
                                (run_tasks core args model_id w2 to_run 0))
             /\ run_outcome core w args = Ok tt).
Proof.
  cbv zeta.
  destruct (run_events_shape core w args)
    as (opening & w2 & session_id & Hop & Hev & Hout).
  cbv zeta in Hop, Hev. exists w2, session_id. rewrite <- Hop.
  destruct (args_list args).
  - left. auto.
  - right. destruct (tasks_to_run args (session_tasks core w args))
      as [[announce to_run]|err].
    + right. split; [reflexivity|]. exists announce, to_run. auto.
    + left. split; [reflexivity|]. exists err. rewrite app_nil_r in Hev. auto.
Qed.

Lemma closing_is_quiet {World} (core : ERC3 World) (args : Args)
      (session_id : string) (total : nat) (e : LoopEnd) :
  let closing := snd (finish core args session_id total e) in
  started closing = [] /\ agent_runs closing = [] /\ completed closing = []
  /\ stopped closing = false.
Proof.
  unfold finish. destruct (run_all args && negb (stopped_early e));
    repeat split; reflexivity.
Qed.

Lemma announce_is_quiet (args : Args) (tasks : list TaskInfo) announce to_run :
  tasks_to_run args tasks = Ok (announce, to_run) ->
  started announce = [] /\ agent_runs announce = [] /\ completed announce = []
  /\ submitted announce = false /\ stopped announce = false.
Proof.
  intros H.
  destruct (tasks_to_run_block _ _ _ _ H) as (first & count & _ & _ & _ & _ & M).
  destruct (args_task args) as [[|c s]|].
  - destruct M as (_ & _ & ->). repeat split; reflexivity.
  - destruct M as (_ & _ & ->). repeat split; reflexivity.
  - destruct M as (_ & _ & ->). repeat split; reflexivity.
Qed.

(** The tasks that a run of [main] touches: the first tasks of its run
    list, each of them started, handed to the agent and completed. *)
Lemma run_events_tasks {World} (core : ERC3 World) (w : World) (args : Args) :
  let evs := run_events core w args in
  exists ran : list (Z * TaskInfo),
    started evs = map snd ran
    /\ agent_runs evs = map snd ran
    /\ completed evs = map snd ran
    /\ (ran = []
        \/ exists announce to_run k,
             args_list args = false
             /\ tasks_to_run args (session_tasks core w args)
                = Ok (announce, to_run)
             /\ ran = firstn k to_run).
Proof.
  cbv zeta.
  destruct (run_events_cases core w args) as (w2 & session_id & Cases).
  cbv zeta in Cases.
  destruct Cases as [(L & -> & _)|[(L & err & T & -> & _)
                                  |(L & announce & to_run & T & -> & _)]].
  - exists [].
    destruct (listing_is_quiet (enumerate 1 (session_tasks core w args)))
      as (_ & _ & Q3 & Q4 & Q5).
    cbv zeta in Q3, Q4, Q5. unfold started, agent_runs, completed in *.
    rewrite !pick_app. cbn [pick is_start is_agent_run is_complete app].
    rewrite Q3, Q4, Q5. repeat split; auto.
  - exists []. repeat split; auto.
  - set (e := run_tasks core args (choose_model args) w2 to_run 0).
    destruct (run_tasks_prefix core args (choose_model args) to_run w2 0)
      as (H1 & H2 & H3 & _).
    fold e in H1, H2, H3.
    destruct (announce_is_quiet _ _ _ _ T) as (A1 & A2 & A3 & _).
    destruct (closing_is_quiet core args session_id
                (length (session_tasks core w args)) e) as (C1 & C2 & C3 & _).
    cbv zeta in C1, C2, C3.
    eexists. unfold started, agent_runs, completed in *.
    rewrite !pick_app, A1, A2, A3, C1, C2, C3, H1, H2, H3.
    cbn [pick is_start is_agent_run is_complete app]. rewrite !app_nil_r.
    split; [reflexivity|]. split; [reflexivity|]. split; [reflexivity|].
    right. exists announce, to_run.
    destruct (args_stop_on_fail args);
      [destruct (first_zero _) as [k|]|];
      [exists (S k) | exists (length to_run) | exists (length to_run)];
      rewrite ?firstn_all; auto.
Qed.

(** Where an event of a run can come from. *)
Lemma run_events_members {World} (core : ERC3 World) (w : World) (args : Args)
      (ev : event) :
  let tasks := session_tasks core w args in
  let model_id := choose_model args in
  In ev (run_events core w args) ->
  (exists session_id,
     In ev [EvStartSession "store" "my"
              ("LangChain Agent (" ++ model_id ++ ")")%string
              ("LangChain create_agent with "
               ++ provider_name (args_provider args))%string
              ["compete_accuracy"];
            EvPrint (PrProviderModel (args_provider args) model_id);
            EvSessionStatus session_id;
            EvPrint (PrSessionHasTasks (length tasks))])
  \/ (args_list args = true
      /\ (ev = EvPrint PrAvailableTasks
          \/ exists i t,
               ev = EvPrint (PrListEntry i t) /\ In (i, t) (enumerate 1 tasks)))
  \/ (args_list args = false
      /\ exists announce to_run,
           tasks_to_run args tasks = Ok (announce, to_run)
           /\ (In ev announce
               \/ loop_event model_id (args_provider args) to_run ev
               \/ exists session_id completed_count,
                    ev = EvSubmitSession session_id
                    \/ ev = EvPrint (PrSubmitted session_id)
                    \/ ev = EvPrint (PrNotSubmitted completed_count
                                       (length tasks) session_id))).
Proof.
  cbv zeta. intros I.
  destruct (run_events_cases core w args) as (w2 & session_id & Cases).
  cbv zeta in Cases.
  destruct Cases as [(L & E & _)|[(L & err & T & E & _)
                                 |(L & announce & to_run & T & E & _)]];
    rewrite E in I; clear E.
  - apply in_app_or in I as [I|I]; [left; now exists session_id|].
    right. left. split; [exact L|]. destruct I as [<-|I]; [now left|].
    right. apply in_map_iff in I as ([i t] & <- & I). now exists i, t.
  - left. now exists session_id.
  - apply in_app_or in I as [I|I]; [left; now exists session_id|].
    right. right. split; [exact L|]. exists announce, to_run.
    split; [exact T|].
    apply in_app_or in I as [I|I]; [now left|]. right.
    apply in_app_or in I as [I|I].
    + left. pose proof (loop_events core args (choose_model args) to_run w2 0)
        as F.
      rewrite Forall_forall in F. now apply F.
    + right. unfold finish in I.
      destruct (run_all args && negb (stopped_early _)); cbn in I.
      * exists session_id, 0. intuition auto.
      * eexists session_id, _. destruct I as [<-|[]]. auto.
Qed.

Lemma enumerate_member {A} (i : Z) (a : A) (l : list A) :
  forall first,
    In (i, a) (enumerate first l) ->
    first <= i /\ nth_error l (Z.to_nat (i - first)) = Some a.
Proof.
  induction l as [|x l IH]; intros first; cbn; [contradiction|].
  intros [[= <- <-]|H].
  - split; [lia|]. now replace (first - first) with 0 by lia.
  - destruct (IH _ H) as [L N]. split; [lia|].
    replace (Z.to_nat (i - first)) with (S (Z.to_nat (i - (first + 1))))
      by lia.
    exact N.
Qed.

(** X3: in every run of [main], whatever the options and the answers of
    the harness and of the agent, the tasks given to [start_task], to
    [run_agent] and to [complete_task] are the same tasks in the same
    order: no task is started without being run and completed. *)
Theorem every_started_task_is_completed :
  forall {World} (core : ERC3 World) (w : World) (args : Args),
    started (run_events core w args) = agent_runs (run_events core w args)
    /\ agent_runs (run_events core w args)
       = completed (run_events core w args)
    /\ in_progress (run_events core w args) = 0.
Proof.
  intros World core w args.
  destruct (run_events_tasks core w args) as (ran & S & A & C & _).
  cbv zeta in S, A, C. unfold in_progress. rewrite S, A, C.
  repeat split; lia.
Qed.

Lemma firstn_of_numbered {A B} (k : nat) :
  forall (numbers : list A) (l : list B),
    exists m, map snd (firstn k (combine numbers l)) = firstn m l.
Proof.
  induction k as [|k IH]; intros numbers l; [now exists O|].
  destruct numbers as [|n numbers], l as [|x l]; try (now exists O).
  destruct (IH numbers l) as (m & E). exists (S m). cbn. now rewrite E.
Qed.

(** X4: the tasks that a run of [main] starts are a block of consecutive
    tasks of the session, in the order of the session. *)
Theorem run_is_a_block_of_the_session :
  forall {World} (core : ERC3 World) (w : World) (args : Args),
    exists before after,
      session_tasks core w args
      = before ++ started (run_events core w args) ++ after.
Proof.
  intros World core w args.
  destruct (run_events_tasks core w args) as (ran & S & _ & _ & R).
  cbv zeta in S. rewrite S.
  destruct R as [->|(announce & to_run & k & _ & T & ->)].
  - exists [], (session_tasks core w args). reflexivity.
  - destruct (tasks_to_run_block _ _ _ _ T) as (first & count & -> & _).
    destruct (firstn_of_numbered k (range_from first count)
                (firstn count (skipn (Z.to_nat (first - 1))
                                     (session_tasks core w args))))
      as (m & ->).
    rewrite firstn_firstn.
    exists (firstn (Z.to_nat (first - 1)) (session_tasks core w args)),
      (skipn (Nat.min m count)
             (skipn (Z.to_nat (first - 1)) (session_tasks core w args))).
    now rewrite !firstn_skipn.
Qed.

(** X5: the number that [main] shows for a task, in the listing of list
    mode as in the header of a task that it runs, is the position of the
    task in the session, counted from 1. *)
Theorem shown_numbers_are_positions :
  forall {World} (core : ERC3 World) (w : World) (args : Args) n t,
    In (EvPrint (PrTaskHeader n t)) (run_events core w args)
    \/ In (EvPrint (PrListEntry n t)) (run_events core w args) ->
    1 <= n <= Z.of_nat (length (session_tasks core w args))
    /\ nth_error (session_tasks core w args) (Z.to_nat (n - 1)) = Some t.
Proof.
  intros World core w args n t I.
  assert (P : forall ev,
             ev = EvPrint (PrTaskHeader n t) \/ ev = EvPrint (PrListEntry n t) ->
             In ev (run_events core w args) ->
             1 <= n
             /\ nth_error (session_tasks core w args) (Z.to_nat (n - 1))
                = Some t).
  { intros ev Hev Hin.
    destruct (run_events_members core w args ev Hin)
      as [(sid & O)|[(_ & [->|(i & x & -> & E)])
                    |(_ & announce & to_run & T & [A|[Lp|C]])]].
    - cbn in O. destruct Hev as [->| ->]; intuition discriminate.
    - destruct Hev; discriminate.
    - destruct Hev as [[=]|[= <- <-]].
      apply enumerate_member in E. tauto.
    - destruct (tasks_to_run_block _ _ _ _ T)
        as (first & count & _ & _ & _ & _ & M).
      destruct (args_task args) as [[|c s]|];
        destruct M as (_ & _ & ->); cbn in A;
        destruct Hev as [->| ->]; intuition discriminate.
    - destruct Hev as [->| ->]; cbn in Lp; [|contradiction].
      destruct (tasks_to_run_block _ _ _ _ T)
        as (first & count & E & L & _).
      rewrite E in Lp. apply block_member in Lp; [tauto | exact L].
    - destruct C as (sid & c & C).
      destruct Hev as [->| ->]; intuition discriminate. }
  assert (Q : 1 <= n
              /\ nth_error (session_tasks core w args) (Z.to_nat (n - 1))
                 = Some t)
    by (destruct I as [I|I]; [apply (P _ (or_introl eq_refl) I)
                             | apply (P _ (or_intror eq_refl) I)]).
  destruct Q as [L N]. split; [|exact N].
  assert (Z.to_nat (n - 1) < length (session_tasks core w args))%nat
    by (apply nth_error_Some; congruence).
  lia.
Qed.

Lemma run_is_a_block_of_the_session_witness :
  exists before after,
    Demo.tasks
    = before
      ++ started (run_events Demo.core O (Demo.args (Some "2-3") true false))
      ++ after.
Proof.
  apply (run_is_a_block_of_the_session
           Demo.core O (Demo.args (Some "2-3") true false)).
Defined.

Lemma shown_numbers_are_positions_witness :
  1 <= 2 <= 3 /\ nth_error Demo.tasks (Z.to_nat (2 - 1)) = Some Demo.t2.
Proof.
  apply (shown_numbers_are_positions
           Demo.core O (Demo.args (Some "2-3") true false) 2 Demo.t2).
  left. vm_compute. do 6 right. left. reflexivity.
Defined.

(** What a run that reaches the loop shows of it. *)
Lemma loop_in_run {World} (core : ERC3 World) (args : Args)
      (tasks : list TaskInfo) (opening announce : list event)
      (to_run : list (Z * TaskInfo)) (w2 : World) (session_id : string) :
  let e := run_tasks core args (choose_model args) w2 to_run 0 in
  let evs :=
    opening ++ announce ++ end_events e
    ++ snd (finish core args session_id (length tasks) e) in
  tasks_to_run args tasks = Ok (announce, to_run) ->
  started opening = [] -> completed opening = [] ->
  submitted opening = false -> stopped opening = false ->
  started evs = started (end_events e)
  /\ completed evs = completed (end_events e)
  /\ stopped evs = stopped_early e
  /\ submitted evs = run_all args && negb (stopped_early e)
  /\ completed_count e = Z.of_nat (length (completed evs)).
Proof.
  intros e evs T O1 O2 O3 O4.
  destruct (announce_is_quiet _ _ _ _ T) as (A1 & _ & A3 & A4 & A5).
  destruct (closing_is_quiet core args session_id (length tasks) e)
    as (C1 & _ & C3 & C4).
  destruct (loop_flags core args (choose_model args) to_run w2 0) as [F1 F2].
  destruct (run_tasks_prefix core args (choose_model args) to_run w2 0)
    as (_ & _ & H3 & H4 & _).
  cbv zeta in C1, C3, C4, F1, F2, H3, H4. fold e in C1, C3, C4, F1, F2, H3, H4.
  assert (S : started evs = started (end_events e)).
  { unfold evs, started in *. rewrite !pick_app, O1, A1, C1.
    now rewrite app_nil_r. }
  assert (C : completed evs = completed (end_events e)).
  { unfold evs, completed in *. rewrite !pick_app, O2, A3, C3.
    now rewrite app_nil_r. }
  split; [exact S|]. split; [exact C|].
  split; [|split].
  - unfold evs. rewrite !stopped_app, O4, A5, F2, C4.
    now rewrite orb_false_r.
  - unfold evs. rewrite !submitted_app, O3, A4, F1. cbn [orb].
    unfold finish. destruct (run_all args && negb (stopped_early e));
      reflexivity.
  - rewrite C, H3, H4, length_map. lia.
Qed.

(** X6: one model and one provider serve a whole run. The first event of
    every run registers the session under the chosen model, which is
    never the empty string (an empty [-m] gives the default of the
    provider), and every call of [run_agent] names that same model and
    the provider of the command line. *)
Theorem one_model_for_the_whole_run :
  forall {World} (core : ERC3 World) (w : World) (args : Args),
    let model_id := choose_model args in
    hd_error (run_events core w args)
    = Some (EvStartSession "store" "my"
              ("LangChain Agent (" ++ model_id ++ ")")%string
              ("LangChain create_agent with "
               ++ provider_name (args_provider args))%string
              ["compete_accuracy"])
    /\ (forall m t p,
          In (EvRunAgent m t p) (run_events core w args) ->
          m = model_id /\ p = args_provider args)
    /\ model_id <> ""
    /\ (forall chosen,
          args_model args = Some chosen -> chosen <> "" -> model_id = chosen).
Proof.
  intros World core w args model_id. split; [|split; [|split]].
  - destruct (run_events_cases core w args) as (w2 & session_id & Cases).
    cbv zeta in Cases.
    destruct Cases as [(_ & -> & _)|[(_ & err & _ & -> & _)
                                    |(_ & announce & to_run & _ & -> & _)]];
      reflexivity.
  - intros m t p I.
    destruct (run_events_members core w args _ I)
      as [(sid & O)|[(_ & [E|(i & x & E & _)])
                    |(_ & announce & to_run & T & [A|[Lp|C]])]];
      try discriminate.
    + cbn in O. intuition discriminate.
    + destruct (tasks_to_run_block _ _ _ _ T)
        as (first & count & _ & _ & _ & _ & M).
      destruct (args_task args) as [[|c s]|];
        destruct M as (_ & _ & ->); cbn in A; intuition discriminate.
    + cbn in Lp. tauto.
    + destruct C as (sid & c & C). intuition discriminate.
  - unfold model_id, choose_model.
    destruct (args_model args) as [[|c m]|];
      [destruct (args_provider args)| |destruct (args_provider args)];
      discriminate.
  - intros chosen E N. unfold model_id, choose_model. rewrite E.
    destruct chosen; [contradiction | reflexivity].
Qed.

Lemma one_model_for_the_whole_run_witness :
  choose_model {| args_task := None; args_stop_on_fail := false;
                  args_list := false; args_model := Some "";
                  args_provider := gigachat |}
  = "GigaChat-2-Max"
  /\ choose_model {| args_task := None; args_stop_on_fail := false;
                     args_list := false; args_model := Some "GigaChat-Pro";
                     args_provider := gigachat |}
     = "GigaChat-Pro".
Proof.
  split; [reflexivity|].
  destruct (one_model_for_the_whole_run
              Demo.core O
              {| args_task := None; args_stop_on_fail := false;
                 args_list := false; args_model := Some "GigaChat-Pro";
                 args_provider := gigachat |}) as (_ & _ & _ & H).
  apply (H "GigaChat-Pro"); [reflexivity | discriminate].
Defined.

(** X7: as long as the calls of the harness return, a selection that
    [parse_task_range] rejects makes [main] end with that [ValueError],
    the one of [int] or the one of the range, after the session has been
    started and its status read and before anything else: the session
    stays open, no task is started and nothing is submitted. A selection
    that [parse_task_range] accepts never makes [main] raise: the
    indexing of the task list stays within its bounds. *)
Theorem rejected_selection_leaves_an_open_session :
  forall {World} (core : ERC3 World) (w : World) (args : Args) c s,
    let evs := run_events core w args in
    let tasks := session_tasks core w args in
    args_list args = false ->
    args_task args = Some (String c s) ->
    (forall err,
       parse_task_range (String c s) (Z.of_nat (length tasks)) = Raise err ->
       run_outcome core w args = Raise err
       /\ (err = ValueError_range (String c s) (Z.of_nat (length tasks))
           \/ exists literal, err = ValueError_literal literal)
       /\ (exists name architecture session_id,
             evs = [EvStartSession "store" "my" name architecture
                      ["compete_accuracy"];
                    EvPrint (PrProviderModel (args_provider args)
                                             (choose_model args));
                    EvSessionStatus session_id;
                    EvPrint (PrSessionHasTasks (length tasks))])
       /\ started evs = [] /\ completed evs = [] /\ submitted evs = false)
    /\ (forall start_idx end_idx,
          parse_task_range (String c s) (Z.of_nat (length tasks))
          = Ok (start_idx, end_idx) ->
          run_outcome core w args = Ok tt).
Proof.
  intros World core w args c s evs tasks L A.
  destruct (run_events_cases core w args) as (w2 & session_id & Cases).
  cbv zeta in Cases. fold evs tasks in Cases.
  split.
  - intros err P.
    assert (T : tasks_to_run args tasks = Raise err)
      by (unfold tasks_to_run; rewrite A, P; reflexivity).
    destruct Cases as [(L' & _)|[(_ & err' & T' & E & O)
                                |(_ & announce & to_run & T' & _)]];
      [congruence | | congruence].
    rewrite T in T'. injection T' as <-.
    split; [exact O|]. split; [now apply parse_task_range_raises|].
    rewrite E. split; [do 3 eexists; reflexivity|].
    repeat split; reflexivity.
  - intros start_idx end_idx P.
    destruct Cases as [(L' & _)|[(_ & err' & T' & _)
                                |(_ & announce & to_run & _ & _ & O)]];
      [congruence | | exact O].
    destruct (tasks_to_run_raises _ _ _ T') as (task_arg & A' & P').
    rewrite A in A'. injection A' as <-. congruence.
Qed.

Lemma rejected_selection_leaves_an_open_session_witness :
  run_outcome Demo.core O (Demo.args (Some "2-9") false false)
  = Raise (ValueError_range "2-9" 3)
  /\ started (run_events Demo.core O (Demo.args (Some "2-9") false false)) = []
  /\ submitted (run_events Demo.core O (Demo.args (Some "2-9") false false))
     = false
  /\ run_outcome Demo.core O (Demo.args (Some "2-3") false false) = Ok tt.
Proof.
  destruct (rejected_selection_leaves_an_open_session
              Demo.core O (Demo.args (Some "2-9") false false) "2" "-9"
              eq_refl eq_refl) as (Bad & _).
  destruct (Bad (ValueError_range "2-9" 3) eq_refl)
    as (Out & _ & _ & S & _ & N).
  split; [exact Out|]. split; [exact S|]. split; [exact N|].
  destruct (rejected_selection_leaves_an_open_session
              Demo.core O (Demo.args (Some "2-3") false false) "2" "-3"
              eq_refl eq_refl) as (_ & Good).
  apply (Good 2 3). reflexivity.
Defined.

Lemma no_closing_line {P : event -> Prop} (l : list event) :
  Forall P l -> (forall ev, P ev -> closing_line ev = false) ->
  existsb closing_line l = false.
Proof.
  intros F H. induction F as [|ev l Pev _ IH]; cbn; [reflexivity|].
  now rewrite (H ev Pev), IH.
Qed.

(** The loop writes none of the lines that close a run. *)
Lemma loop_has_no_closing_line {World} (core : ERC3 World) (args : Args)
      (model_id : string) (to_run : list (Z * TaskInfo)) (w : World)
      (count : Z) :
  existsb closing_line
          (end_events (run_tasks core args model_id w to_run count))
  = false.
Proof.
  apply (no_closing_line _ (loop_events core args model_id to_run w count)).
  intros [| | | | | | |line]; cbn; try tauto; try reflexivity.
  destruct line; cbn; tauto || reflexivity.
Qed.

(** X8: a run that reaches the loop ends with exactly one closing
    report, for the session that it opened: either [submit_session] and
    its message, or the message that the session is not submitted,
    whose count is the number of tasks that were completed and whose
    total is the number of tasks of the session. Before that report the
    run has no event that submits the session and no message of either
    kind. *)
Theorem the_report_counts_the_completed_tasks :
  forall {World} (core : ERC3 World) (w : World) (args : Args),
    args_list args = false ->
    run_outcome core w args = Ok tt ->
    let evs := run_events core w args in
    let tasks := session_tasks core w args in
    exists before session_id,
      (evs = before ++ [EvSubmitSession session_id;
                        EvPrint (PrSubmitted session_id)]
       \/ evs = before
                ++ [EvPrint (PrNotSubmitted
                               (Z.of_nat (length (completed evs)))
                               (length tasks) session_id)])
      /\ existsb closing_line before = false
      /\ submitted before = false
      /\ In (EvSessionStatus session_id) before.
Proof.
  intros World core w args L R evs tasks.
  destruct (run_events_cases core w args) as (w2 & session_id & Cases).
  cbv zeta in Cases. fold evs tasks in Cases.
  destruct Cases as [(L' & _)|[(_ & err & _ & _ & O)
                              |(_ & announce & to_run & T & E & _)]];
    [congruence | rewrite O in R; discriminate |].
  set (e := run_tasks core args (choose_model args) w2 to_run 0) in *.
  set (opening := [EvStartSession "store" "my"
                     ("LangChain Agent (" ++ choose_model args ++ ")")%string
                     ("LangChain create_agent with "
                      ++ provider_name (args_provider args))%string
                     ["compete_accuracy"];
                   EvPrint (PrProviderModel (args_provider args)
                                            (choose_model args));
                   EvSessionStatus session_id;
                   EvPrint (PrSessionHasTasks (length tasks))]) in *.
  destruct (loop_in_run core args tasks opening announce to_run w2 session_id
              T eq_refl eq_refl eq_refl eq_refl) as (_ & _ & _ & _ & Cnt).
  cbv zeta in Cnt. fold e in Cnt. rewrite <- E in Cnt.
  destruct (announce_is_quiet _ _ _ _ T) as (_ & _ & _ & A4 & _).
  destruct (loop_flags core args (choose_model args) to_run w2 0) as [F1 _].
  cbv zeta in F1. fold e in F1.
  exists (opening ++ announce ++ end_events e), session_id.
  split; [|split; [|split]].
  - destruct (run_all args && negb (stopped_early e)) eqn:B;
      [left | right]; (etransitivity; [exact E|]);
      unfold finish; rewrite B; cbn [snd]; rewrite <- ?Cnt, <- !app_assoc;
      reflexivity.
  - rewrite !existsb_app. unfold e. rewrite loop_has_no_closing_line.
    assert (An : existsb closing_line announce = false).
    { destruct (tasks_to_run_block _ _ _ _ T)
        as (first & count & _ & _ & _ & _ & M).
      destruct (args_task args) as [[|c s]|];
        destruct M as (_ & _ & ->); reflexivity. }
    rewrite An. reflexivity.
  - rewrite !submitted_app, A4, F1. reflexivity.
  - apply in_or_app. left. cbn. auto.
Qed.

Lemma the_report_counts_the_completed_tasks_witness :
  exists before session_id,
    run_events Demo.core O (Demo.args None true false)
    = before ++ [EvPrint (PrNotSubmitted 2 3 session_id)]
    /\ existsb closing_line before = false.
Proof.
  destruct (the_report_counts_the_completed_tasks
              Demo.core O (Demo.args None true false) eq_refl eq_refl)
    as (before & session_id & [E|E] & Once & _ & _).
  - exfalso.
    assert (S : submitted (run_events Demo.core O (Demo.args None true false))
                = true)
      by (rewrite E, submitted_app; cbn; apply orb_true_r).
    vm_compute in S. discriminate S.
  - exists before, session_id. split; [exact E | exact Once].
Defined.

(** X9: only the stop-on-fail flag makes a run leave tasks out. Without
    it the loop is never left early and every task of the run list is
    completed, whatever the scores and whatever the agent raises; so a
    run without [-t], [-l] and [-s] always completes every task of the
    session and submits it. *)
Theorem only_stop_on_fail_leaves_tasks_out :
  forall {World} (core : ERC3 World) (w : World) (args : Args),
    let evs := run_events core w args in
    let tasks := session_tasks core w args in
    (stopped evs = true -> args_stop_on_fail args = true)
    /\ (args_stop_on_fail args = false -> args_list args = false ->
        forall announce to_run,
          tasks_to_run args tasks = Ok (announce, to_run) ->
          started evs = map snd to_run /\ completed evs = map snd to_run)
    /\ (args_stop_on_fail args = false -> args_list args = false ->
        args_task args = None ->
        submitted evs = true /\ completed evs = tasks).
Proof.
  intros World core w args evs tasks.
  destruct (run_events_cases core w args) as (w2 & session_id & Cases).
  cbv zeta in Cases. fold evs tasks in Cases.
  assert (Loop :
            args_list args = false ->
            forall announce to_run,
              tasks_to_run args tasks = Ok (announce, to_run) ->
              let e := run_tasks core args (choose_model args) w2 to_run 0 in
              started evs = started (end_events e)
              /\ completed evs = completed (end_events e)
              /\ stopped evs = stopped_early e
              /\ submitted evs = run_all args && negb (stopped_early e)).
  { intros L announce to_run T e.
    destruct Cases as [(L' & _)|[(_ & err & T' & _)
                                |(_ & announce' & to_run' & T' & E & _)]];
      [congruence | congruence |].
    rewrite T in T'. injection T' as <- <-. rewrite E.
    destruct (loop_in_run core args tasks
                [EvStartSession "store" "my"
                   ("LangChain Agent (" ++ choose_model args ++ ")")%string
                   ("LangChain create_agent with "
                    ++ provider_name (args_provider args))%string
                   ["compete_accuracy"];
                 EvPrint (PrProviderModel (args_provider args)
                                          (choose_model args));
                 EvSessionStatus session_id;
                 EvPrint (PrSessionHasTasks (length tasks))]
                announce to_run w2 session_id
                T eq_refl eq_refl eq_refl eq_refl) as (H1 & H2 & H3 & H4 & _).
    auto. }
  assert (Full :
            args_stop_on_fail args = false ->
            forall to_run,
              let e := run_tasks core args (choose_model args) w2 to_run 0 in
              stopped_early e = false
              /\ started (end_events e) = map snd to_run
              /\ completed (end_events e) = map snd to_run).
  { intros F to_run e.
    destruct (run_tasks_prefix core args (choose_model args) to_run w2 0)
      as (H1 & _ & H3 & _ & H5).
    fold e in H1, H3, H5. rewrite F in *. auto. }
  split; [|split].
  - intros S. destruct (args_stop_on_fail args) eqn:F; [reflexivity|].
    exfalso.
    destruct Cases as [(_ & E & _)|[(_ & err & _ & E & _)
                                   |(L & announce & to_run & T & _)]].
    + rewrite E, stopped_app in S. cbn [stopped existsb orb] in S.
      destruct (listing_is_quiet (enumerate 1 tasks)) as (_ & Q & _).
      cbv zeta in Q. unfold stopped in Q. rewrite Q in S. discriminate.
    + rewrite E in S. discriminate.
    + destruct (Loop L _ _ T) as (_ & _ & St & _).
      destruct (Full eq_refl to_run) as (N & _). congruence.
  - intros F L announce to_run T.
    destruct (Loop L _ _ T) as (S & C & _).
    destruct (Full F to_run) as (_ & S' & C'). split; congruence.
  - intros F L N.
    assert (T : tasks_to_run args tasks
                = Ok ([], map (fun it => (fst it + 1, snd it))
                              (enumerate 0 tasks)))
      by (unfold tasks_to_run; now rewrite N).
    destruct (Loop L _ _ T) as (_ & C & _ & Sub).
    destruct (Full F (map (fun it => (fst it + 1, snd it))
                          (enumerate 0 tasks))) as (St & _ & C').
    cbv zeta in St, C'. rewrite Sub, C, C', St. unfold run_all. rewrite N.
    split; [reflexivity | apply enumerate_tasks].
Qed.

Lemma only_stop_on_fail_leaves_tasks_out_witness :
  submitted (run_events Demo.core O (Demo.args None false false)) = true
  /\ completed (run_events Demo.core O (Demo.args None false false))
     = Demo.tasks
  /\ args_stop_on_fail (Demo.args None true false) = true.
Proof.
  destruct (only_stop_on_fail_leaves_tasks_out
              Demo.core O (Demo.args None false false)) as (_ & _ & Plain).
  destruct (Plain eq_refl eq_refl eq_refl) as [S C].
  split; [exact S|]. split; [exact C|].
  destruct (only_stop_on_fail_leaves_tasks_out
              Demo.core O (Demo.args None true false)) as (Only & _).
  apply Only. reflexivity.
Defined.

(** ** The text of an error *)

Lemma append_assoc (a b c : string) :
  ((a ++ b) ++ c)%string = (a ++ (b ++ c))%string.
Proof. induction a as [|x a IH]; cbn; [reflexivity | now rewrite IH]. Qed.

Lemma all_chars_append (p : ascii -> bool) (a b : string) :
  all_chars p (a ++ b) = all_chars p a && all_chars p b.
Proof.
  induction a as [|x a IH]; cbn; [reflexivity|].
  now rewrite IH, andb_assoc.
Qed.

Lemma escape_ascii_printable (c : ascii) :
  all_chars printable (Json.escape_ascii c) = true.
Proof. destruct c as [[] [] [] [] [] [] [] []]; reflexivity. Qed.

Lemma escape_all_printable (s : string) :
  all_chars printable (Json.escape_all Json.escape_ascii s) = true.
Proof.
  induction s as [|c s IH]; cbn [Json.escape_all]; [reflexivity|].
  now rewrite all_chars_append, escape_ascii_printable, IH.
Qed.

(** The text of [error_json], character by character. *)
Lemma error_json_text_of (message : string) :
  error_json message
  = ("{" ++ String Json.dquote "error" ++ String Json.dquote ": "
     ++ String Json.dquote
          (Json.escape_all Json.escape_ascii message
           ++ String Json.dquote "}"))%string.
Proof.
  unfold error_json, json_dumps. cbn [Json.write].
  unfold Json.quote. cbn. now rewrite append_assoc.
Qed.

(** X10: an adapter answers a failed dispatch in printable ASCII, from
    space to tilde, whatever characters the message of the failure
    has. *)
Theorem errors_are_plain_ascii :
  forall (store_api : StoreClient) (call : tool_call) (e : exception),
    store_api (request_of call) = Raise e ->
    all_chars printable (snd (create_store_tools store_api call)) = true.
Proof.
  intros store_api call e F.
  rewrite (adapter_on_failure _ _ _ F), error_json_text_of.
  cbn [append all_chars]. rewrite all_chars_append, escape_all_printable.
  reflexivity.
Qed.

Lemma errors_are_plain_ascii_witness :
  all_chars printable
    (snd (create_store_tools
            (Demo.always
               (Raise (OtherException
                         (String "233" (String "010" (String "127" ""))))))
            Call_view_basket))
  = true.
Proof.
  apply (errors_are_plain_ascii _ _
           (OtherException (String "233" (String "010" (String "127" ""))))).
  reflexivity.
Defined.

Lemma read_escaped_ascii (c : ascii) (s : string) :
  read_escaped (Json.escape_ascii c ++ s) = Some (c, s).
Proof. destruct c as [[] [] [] [] [] [] [] []]; reflexivity. Qed.

(** The escaped text of a string, up to the quote that closes it, tells
    the string. *)
Lemma escape_all_injective (a : string) :
  forall (b ta tb : string),
    (Json.escape_all Json.escape_ascii a ++ String Json.dquote ta)%string
    = (Json.escape_all Json.escape_ascii b ++ String Json.dquote tb)%string ->
    a = b /\ ta = tb.
Proof.
  induction a as [|c a IH]; intros [|c' b] ta tb; cbn [Json.escape_all].
  - cbn. intros [= ->]. auto.
  - rewrite append_assoc. intros H. apply (f_equal read_escaped) in H.
    rewrite read_escaped_ascii in H. discriminate.
  - rewrite append_assoc. intros H. apply (f_equal read_escaped) in H.
    rewrite read_escaped_ascii in H. discriminate.
  - rewrite !append_assoc. intros H. apply (f_equal read_escaped) in H.
    rewrite !read_escaped_ascii in H. injection H as -> H.
    destruct (IH _ _ _ H) as [-> ->]. auto.
Qed.

(** X11: the text of an error tells its message: two failures get the
    same answer from an adapter exactly when their messages are the
    same, so no message is lost or confused with another one by the
    encoding. *)
Theorem error_text_tells_the_message :
  forall (api1 api2 : StoreClient) (call : tool_call) (e1 e2 : exception),
    api1 (request_of call) = Raise e1 ->
    api2 (request_of call) = Raise e2 ->
    (snd (create_store_tools api1 call) = snd (create_store_tools api2 call)
     <-> message e1 = message e2).
Proof.
  intros api1 api2 call e1 e2 F1 F2.
  rewrite (adapter_on_failure _ _ _ F1), (adapter_on_failure _ _ _ F2).
  split; [|now intros ->].
  rewrite !error_json_text_of. cbn [append]. intros [= H].
  now apply escape_all_injective in H.
Qed.

Lemma error_text_tells_the_message_witness :
  snd (create_store_tools
         (Demo.always (Raise (OtherException "a\nb"))) Call_remove_coupon)
  <> snd (create_store_tools
            (Demo.always (Raise (OtherException (String "a" (String "010" "b")))))
            Call_remove_coupon).
Proof.
  intros H.
  apply (error_text_tells_the_message
           (Demo.always (Raise (OtherException "a\nb")))
           (Demo.always (Raise (OtherException (String "a" (String "010" "b")))))
           Call_remove_coupon
           (OtherException "a\nb")
           (OtherException (String "a" (String "010" "b")))
           eq_refl eq_refl) in H.
  discriminate H.
Defined.

(** ** The usage that [run_agent] logs *)







(** ** A session without tasks *)

(** X15: as long as the calls of the harness return, when the session
    has no task every selection is rejected, as no range lies within 1
    and 0, and [main] ends with the [ValueError] of [parse_task_range]
    without submitting; while a run without selection has nothing to
    run, leaves the loop at once and submits the empty session, with or
    without the stop-on-fail flag. *)
Theorem session_without_tasks :
  forall {World} (core : ERC3 World) (w : World) (args : Args),
    session_tasks core w args = [] ->
    args_list args = false ->
    (forall c s,
       args_task args = Some (String c s) ->
       exists err,
         run_outcome core w args = Raise err
         /\ parse_task_range (String c s) 0 = Raise err
         /\ (err = ValueError_range (String c s) 0
             \/ exists literal, err = ValueError_literal literal)
         /\ started (run_events core w args) = []
         /\ submitted (run_events core w args) = false)
    /\ (args_task args = None ->
        run_outcome core w args = Ok tt
        /\ started (run_events core w args) = []
        /\ submitted (run_events core w args) = true).
Proof.
  intros World core w args E L.
  destruct (run_events_cases core w args) as (w2 & session_id & Cases).
  cbv zeta in Cases. rewrite E in Cases. split.
  - intros c s A.
    assert (P : exists err, parse_task_range (String c s) 0 = Raise err).
    { destruct (parse_task_range (String c s) 0)
        as [[start end_]|err] eqn:P; [|now exists err].
      apply parse_task_range_returns in P. lia. }
    destruct P as (err & P).
    assert (T : tasks_to_run args [] = Raise err)
      by (unfold tasks_to_run; rewrite A; cbn [length Z.of_nat];
          rewrite P; reflexivity).
    destruct Cases as [(L' & _)|[(_ & err' & T' & Ev & O)
                                |(_ & announce & to_run & T' & _)]];
      [congruence | | congruence].
    rewrite T in T'. injection T' as <-.
    exists err. split; [exact O|]. split; [exact P|].
    split; [now apply parse_task_range_raises|].
    rewrite Ev. split; reflexivity.
  - intros A.
    assert (T : tasks_to_run args [] = Ok ([], []))
      by (unfold tasks_to_run; now rewrite A).
    destruct Cases as [(L' & _)|[(_ & err' & T' & _)
                                |(_ & announce & to_run & T' & Ev & O)]];
      [congruence | congruence |].
    rewrite T in T'. injection T' as <- <-.
    split; [exact O|]. rewrite Ev. cbn [run_tasks end_events app].
    unfold finish, run_all. rewrite A. cbn. split; reflexivity.
Qed.

Lemma session_without_tasks_witness :
  submitted
    (run_events
       {| start_session := fun (w : nat) _ _ _ _ _ => (w, "session-0");
          session_status := fun w _ => (w, []);
          start_task := fun w _ => w;
          complete_task := fun w _ => (w, {| result_eval := None |});
          submit_session := fun w _ => w;
          run_agent := fun w _ _ _ => (w, None) |}
       O (Demo.args None true false))
  = true
  /\ exists err,
       run_outcome
         {| start_session := fun (w : nat) _ _ _ _ _ => (w, "session-0");
            session_status := fun w _ => (w, []);
            start_task := fun w _ => w;
            complete_task := fun w _ => (w, {| result_eval := None |});
            submit_session := fun w _ => w;
            run_agent := fun w _ _ _ => (w, None) |}
         O (Demo.args (Some "1") false false)
       = Raise err
       /\ parse_task_range "1" 0 = Raise err.
Proof.
  split.
  - apply (session_without_tasks
             {| start_session := fun (w : nat) _ _ _ _ _ => (w, "session-0");
                session_status := fun w _ => (w, []);
                start_task := fun w _ => w;
                complete_task := fun w _ => (w, {| result_eval := None |});
                submit_session := fun w _ => w;
                run_agent := fun w _ _ _ => (w, None) |}
             O (Demo.args None true false));
      reflexivity.
  - destruct (session_without_tasks
                {| start_session := fun (w : nat) _ _ _ _ _ => (w, "session-0");
                   session_status := fun w _ => (w, []);
                   start_task := fun w _ => w;
                   complete_task := fun w _ => (w, {| result_eval := None |});
                   submit_session := fun w _ => w;
                   run_agent := fun w _ _ _ => (w, None) |}
                O (Demo.args (Some "1") false false) eq_refl eq_refl)
      as (Bad & _).
    destruct (Bad "1"%char "" eq_refl) as (err & Out & P & _).
    exists err. split; assumption.
Defined.
